(** * mittens: warm-up orchestration, HTTP client and gRPC client

    A shallow embedding of

    - [internal/pkg/warmup/warmup.go]  (request sources, workers, ramp-up, [Run]),
    - [internal/pkg/http/client.go]    ([SendRequest]),
    - [pkg/grpc/client.go]             ([NewClient], [connect], [Request], [Close]),

    followed by the properties of the specification that concern them.

    The Go code is effectful: it reads the wall clock, sleeps, logs, draws
    random numbers and talks to the network.  All of that is threaded
    through an explicit [World]; what the libraries outside the repository
    answer (net/http, grpc, grpcurl, math/rand) is supplied by an [Env] of
    oracles that may depend on the whole history of the world. *)

From Stdlib Require Import ZArith List String Ascii Bool Lia.
Import ListNotations.
Local Open Scope Z_scope.

(* ================================================================== *)
(** ** Go integers, durations and the state monad *)

Module Go.

(** [int] and [int64] (and so [time.Duration]) are 64-bit two's complement
    integers; arithmetic wraps around. *)
Definition min_int : Z := - 2 ^ 63.
Definition max_int : Z := 2 ^ 63 - 1.

Definition wrap (z : Z) : Z := (z + 2 ^ 63) mod 2 ^ 64 - 2 ^ 63.

Definition in_range (z : Z) : Prop := min_int <= z <= max_int.

Definition add (a b : Z) : Z := wrap (a + b).
Definition mul (a b : Z) : Z := wrap (a * b).

(** [a / b] on integers truncates toward zero and panics when [b] is 0
    ([None] here). *)
Definition div (a b : Z) : option Z :=
  if b =? 0 then None else Some (wrap (Z.quot a b)).

(** What a function call ends in. *)
Inductive outcome (A : Type) : Type :=
| Returned (a : A)
| Panicked (msg : string)
| OutOfFuel                (* the bound on the steps followed was reached *)
| Interleaved (a : A).     (* several goroutines run from [a]; they are not followed *)
Arguments Returned {A} a.
Arguments Panicked {A} msg.
Arguments OutOfFuel {A}.
Arguments Interleaved {A} a.

Definition divide_error : string := "runtime error: integer divide by zero".

(** [error] values, by their message; [nil] is [None]. *)
Definition error : Type := string.

(** [fmt.Errorf(prefix ++ "%v", err)]. *)
Definition Errorf (prefix : string) (err : error) : error :=
  String.append prefix err.

(** State passing: a computation over a state [S] returning an [A]. *)
Definition M (S A : Type) : Type := S -> A * S.

Definition ret {S A} (a : A) : M S A := fun s => (a, s).

Definition bind {S A B} (m : M S A) (k : A -> M S B) : M S B :=
  fun s => let (a, s') := m s in k a s'.

Definition get {S} : M S S := fun s => (s, s).
Definition modify {S} (f : S -> S) : M S unit := fun s => (tt, f s).

(** [for i := from; ...; i++ { body i }], run for [n] iterations. *)
Fixpoint for_loop {S} (n : nat) (from : Z) (body : Z -> M S unit) : M S unit :=
  match n with
  | O => ret tt
  | S n' => bind (body from) (fun _ => for_loop n' (from + 1) body)
  end.

(** [for i := 1; i <= hi; i++ { body i }], for [hi < max_int]: the counter
    then never wraps. *)
Definition for_1_to {S} (hi : Z) (body : Z -> M S unit) : M S unit :=
  for_loop (Z.to_nat hi) 1 body.

End Go.

Import Go.

Declare Scope go_scope.
Delimit Scope go_scope with go.
Notation "x <- m ;; k" := (bind m (fun x => k))
  (at level 61, m at next level, right associativity) : go_scope.
Notation "' pat <- m ;; k" := (bind m (fun x => match x with pat => k end))
  (at level 61, pat pattern, m at next level, right associativity) : go_scope.
Notation "m ;; k" := (bind m (fun _ => k))
  (at level 61, right associativity) : go_scope.
Open Scope go_scope.

(* ================================================================== *)
(** ** Values exchanged with the libraries outside the repository *)

(** Modelled from the spec: [response.Response], the Outcome of one send
    attempt, [{duration, error-or-none, protocol tag, status code}].  The
    declaration of package [response] is missing; the fields are named as
    the two clients build them. *)
Record Response : Type := mkResponse {
  Duration : Z;            (* time.Duration, nanoseconds *)
  Err : option error;
  Type_ : string;
  StatusCode : Z
}.

(** [*http.Request] of net/http, as far as the client touches it. *)
Record HttpRequest : Type := mkHttpRequest {
  hreq_Method : string;
  hreq_URL : string;
  hreq_Body : option string;
  hreq_Host : string;
  hreq_Header : list (string * string)
}.

(** [*http.Response] of net/http: the status code; the body is a stream
    that [io.Copy] drains. *)
Record HttpResponse : Type := mkHttpResponse {
  hres_StatusCode : Z
}.

(** Handles of google.golang.org/grpc and grpcurl. *)
Inductive ClientConn : Type := conn_id (n : nat).
Inductive DescriptorSource : Type := source_id (n : nat).
Inductive RequestParser : Type := parser_id (n : nat).

(** One constructor per [log.Print]/[log.Printf] of the three files; the
    format string is quoted next to each. *)
Inductive LogMsg : Type :=
(* warmup.go *)
| LogSpawnHTTP                               (* Spawning new go routine for HTTP requests *)
| LogSpawnGrpc                               (* Spawning new go routine for gRPC requests *)
| LogGrpcConnecting                          (* gRPC client connecting... *)
| LogGrpcConnectError (e : error)            (* gRPC client connect error: %v *)
| LogRequestError (target : string) (e : error) (* (red) Error in request for %s: %v *)
| LogHttpGreen (ty : string) (ms status : Z) (method path : string)
| LogHttpRed (ty : string) (ms status : Z) (method path : string)
| LogGrpcGreen (ty : string) (ms : Z) (serviceMethod : string)
(* http/client.go *)
| LogFailedToCreate (method url : string) (e : error) (* Failed to create request: %s %s: %v *)
(* grpc/client.go *)
| LogGrpcInsecure                            (* Grpc client insecure *)
| LogGrpcConnectingTo (host : string)        (* Grpc client connecting to %s *)
| LogGrpcConnected                           (* Grpc client connected *)
| LogGrpcConnect (e : error)                 (* Grpc client connect: %v *)
| LogCannotConstruct                         (* Cannot construct request parser and formatter for json *)
| LogClosing.                                (* Closing grpc client connection *)

(** What the program does to the outside, in order. *)
Inductive Event : Type :=
| EvLog (m : LogMsg)
| EvSleep (d : Z)                            (* time.Sleep(d) *)
| EvSeed (seed : Z)                          (* rand.Seed *)
| EvHttpDo (req : HttpRequest)               (* httpClient.Do(req) *)
| EvDrain                                    (* io.Copy(ioutil.Discard, resp.Body) *)
| EvBodyClose                                (* resp.Body.Close() *)
| EvDial (host : string) (insecure : bool)   (* grpc.DialContext *)
| EvReflect (c : ClientConn)                 (* DescriptorSourceFromServer *)
| EvInvokeRPC (serviceMethod : string)       (* grpcurl.InvokeRPC *)
| EvCancel                                   (* cancel() of the client context *)
| EvConnClose (c : ClientConn).              (* conn.Close() *)

(** The world: the wall clock (nanoseconds), the history, the [sync.Once]
    cells allocated so far ([true]: done) and the state of the process-wide
    random generator (its seed and the number of draws made). *)
Record World : Type := mkWorld {
  now : Z;
  trace : list Event;
  onces : list bool;
  seed : Z;
  draws : nat
}.

Definition record (e : Event) (wd : World) : World :=
  mkWorld (now wd) (trace wd ++ [e]) (onces wd) (seed wd) (draws wd).

(** Time passing: [dt] nanoseconds elapse. *)
Definition elapse (dt : Z) (wd : World) : World :=
  mkWorld (now wd + dt) (trace wd) (onces wd) (seed wd) (draws wd).

Definition emit (e : Event) : M World unit := modify (record e).

(** [log.Print], [log.Printf]. *)
Definition log_Print (m : LogMsg) : M World unit := emit (EvLog m).

(** The answers of the libraries outside the repository.  Each may depend
    on the world at the time of the call; a call that takes time says how
    long (a natural number of nanoseconds). *)
Record Env : Type := mkEnv {
  (* net/http, io *)
  http_NewRequest : string -> string -> option string -> HttpRequest + error;
  httpClient_Do : World -> HttpRequest -> N * (HttpResponse + error);
  io_Copy_Discard : World -> HttpResponse -> N * option error;
  (* mittens/internal/pkg/util and placeholders *)
  util_ToHeaders : list string -> list (string * string);
  placeholders_InterpolatePlaceholders : World -> string -> string;
  (* google.golang.org/grpc, grpcurl *)
  (* the context's timeout comes first *)
  grpc_DialContext : World -> Z -> string -> bool -> N * (ClientConn + error);
  grpcurl_DescriptorSourceFromServer :
    World -> Z -> ClientConn -> list string -> DescriptorSource;
  grpcurl_RequestParserAndFormatterFor :
    World -> option DescriptorSource -> string -> RequestParser + error;
  grpcurl_InvokeRPC :
    World -> option DescriptorSource -> option ClientConn -> string -> list string ->
    RequestParser -> N * option error;
  conn_Close : World -> ClientConn -> option error;
  (* math/rand: the [k]-th number the generator seeded with [s] yields *)
  rand_Int63 : Z -> nat -> Z
}.

(* ================================================================== *)
(** ** package time *)

Module time.

Definition Nanosecond : Z := 1.
Definition Millisecond : Z := 1000000.
Definition Second : Z := 1000000000.

(** [time.Now()]. *)
Definition Now : M World Z := fun wd => (now wd, wd).

(** [t.Sub(u)]: the difference, saturated to the range of a Duration. *)
Definition Sub (t u : Z) : Z := Z.max min_int (Z.min max_int (t - u)).

(** [time.Sleep(d)]: pauses for [d]; returns at once when [d <= 0]. *)
Definition Sleep (d : Z) : M World unit :=
  fun wd => (tt, record (EvSleep d) (if 0 <? d then elapse d wd else wd)).

(** [time.After(d)]: a channel that becomes ready [d] from now; it is
    represented by the instant at which it does. *)
Definition After (d : Z) : M World Z := fun wd => (now wd + d, wd).

(** Whether a timer channel is ready to be received from. *)
Definition fired (timeout : Z) (wd : World) : bool := timeout <=? now wd.

End time.

(* ================================================================== *)
(** ** package sync: Once *)

Module sync.

(** [new(sync.Once)]: a fresh cell; the result is its address. *)
Definition new_Once : M World nat :=
  fun wd => (List.length (onces wd),
             mkWorld (now wd) (trace wd) (onces wd ++ [false]) (seed wd) (draws wd)).

Definition done (o : nat) (wd : World) : bool := nth o (onces wd) false.

Fixpoint set_nth (o : nat) (l : list bool) : list bool :=
  match l, o with
  | [], _ => []
  | _ :: l', O => true :: l'
  | b :: l', S o' => b :: set_nth o' l'
  end.

Definition mark (o : nat) (wd : World) : World :=
  mkWorld (now wd) (trace wd) (set_nth o (onces wd)) (seed wd) (draws wd).

(** [o.Do(f)]: runs [f] if and only if [Do] is being called for the first
    time for this cell.  [skip] is what the caller is left with when [f]
    is not run. *)
Definition Once_Do {A} (o : nat) (f : M World A) (skip : A) : M World A :=
  fun wd =>
    if done o wd then (skip, wd)
    else let (a, wd') := f wd in (a, mark o wd').

End sync.

(* ================================================================== *)
(** ** package math/rand *)

Module rand.

(** [rand.Seed(s)]. *)
Definition Seed (s : Z) : M World unit :=
  fun wd => (tt, record (EvSeed s) (mkWorld (now wd) (trace wd) (onces wd) s O)).

(** [rand.Intn(n)] for [n > 0]: a number in [0, n). *)
Definition Intn (E : Env) (n : Z) : M World Z :=
  fun wd => (rand_Int63 E (seed wd) (draws wd) mod n,
             mkWorld (now wd) (trace wd) (onces wd) (seed wd) (S (draws wd))).

End rand.

(* ================================================================== *)
(** ** package strings (the three functions the client uses) *)

Module strings.

Fixpoint contains (cutset : string) (c : ascii) : bool :=
  match cutset with
  | EmptyString => false
  | String d rest => Ascii.eqb c d || contains rest c
  end.

(** [strings.TrimLeft(s, cutset)]. *)
Fixpoint TrimLeft (s cutset : string) : string :=
  match s with
  | EmptyString => EmptyString
  | String c rest => if contains cutset c then TrimLeft rest cutset else s
  end.

(** [strings.TrimRight(s, cutset)]. *)
Fixpoint TrimRight (s cutset : string) : string :=
  match s with
  | EmptyString => EmptyString
  | String c rest =>
      match TrimRight rest cutset with
      | EmptyString => if contains cutset c then EmptyString else String c EmptyString
      | rest' => String c rest'
      end
  end.

Definition lower (c : ascii) : ascii :=
  let n := nat_of_ascii c in
  if ((65 <=? n) && (n <=? 90))%nat then ascii_of_nat (n + 32) else c.

(** [strings.EqualFold(s, t)], on ASCII letters. *)
Fixpoint EqualFold (s t : string) : bool :=
  match s, t with
  | EmptyString, EmptyString => true
  | String a s', String b t' => Ascii.eqb (lower a) (lower b) && EqualFold s' t'
  | _, _ => false
  end.

End strings.

(* ================================================================== *)
(** ** package http: internal/pkg/http/client.go *)

Module http.

(** Modelled from the spec: [Request] of package http, the HTTP request
    descriptor [{method, path, optional body}].  Its declaration is
    missing; the fields are named as warmup.go reads them. *)
Record Request : Type := mkRequest {
  Method : string;
  Path : string;
  Body : option string
}.

(** [Client]: the net/http client (its overall timeout and whether it
    skips certificate verification) and the host. *)
Record Client : Type := mkClient {
  Timeout : Z;
  InsecureSkipVerify : bool;
  host : string
}.

(** [NewClient(host, insecure)]. *)
Definition NewClient (host : string) (insecure : bool) : Client :=
  mkClient (10 * time.Second) insecure (strings.TrimRight host "/").

Section SendRequest.
Variable E : Env.

(** [c.httpClient.Do(req)]. *)
Definition Do (req : HttpRequest) : M World (HttpResponse + error) :=
  fun wd =>
    let (dt, r) := httpClient_Do E wd req in
    (r, elapse (Z.of_N dt) (record (EvHttpDo req) wd)).

(** [io.Copy(ioutil.Discard, resp.Body)]: drains the body. *)
Definition Copy_Discard (resp : HttpResponse) : M World (option error) :=
  fun wd =>
    let (dt, r) := io_Copy_Discard E wd resp in
    (r, elapse (Z.of_N dt) (record EvDrain wd)).

(** One round of the loop over the header map. *)
Definition addHeader (wd : World) (req : HttpRequest) (kv : string * string) : HttpRequest :=
  let (k, v) := kv in
  let Host := if strings.EqualFold k "Host" then v else hreq_Host req in
  let interpolatedHeaderValue := placeholders_InterpolatePlaceholders E wd v in
  mkHttpRequest (hreq_Method req) (hreq_URL req) (hreq_Body req) Host
                (hreq_Header req ++ [(k, interpolatedHeaderValue)]).

(** The request as it is sent: [req] with the headers of the run. *)
Definition withHeaders (wd : World) (headers : list string) (req : HttpRequest) : HttpRequest :=
  fold_left (addHeader wd) (util_ToHeaders E headers) req.

(** [SendRequest] sends a request to the HTTP server and wraps useful
    information into a Response object. *)
Definition SendRequest (c : Client) (method path : string) (headers : list string)
    (requestBody : option string) : M World Response :=
  let respType := "http"%string in
  let body := requestBody in
  let url := String.append (host c) (String.append "/" (strings.TrimLeft path "/")) in
  match http_NewRequest E method url body with
  | inr err =>
      log_Print (LogFailedToCreate method url err) ;;
      ret (mkResponse 0 (Some err) respType 0)
  | inl req =>
      wd <- get ;;
      let req := withHeaders wd headers req in
      startTime <- time.Now ;;
      r <- Do req ;;
      endTime <- time.Now ;;
      match r with
      | inr err => ret (mkResponse (time.Sub endTime startTime) (Some err) respType 0)
      | inl resp =>
          (* defer resp.Body.Close() *)
          cerr <- Copy_Discard resp ;;
          emit EvBodyClose ;;
          match cerr with
          | Some err =>
              ret (mkResponse (time.Sub endTime startTime) (Some err) respType
                              (hres_StatusCode resp))
          | None =>
              ret (mkResponse (time.Sub endTime startTime) None respType
                              (hres_StatusCode resp))
          end
      end
  end.

End SendRequest.

End http.

(* ================================================================== *)
(** ** package grpc: pkg/grpc/client.go *)

Module grpc.

(** The two closures [connClose] is ever bound to. *)
Inductive closeFn : Type :=
| close_nil                       (* func() error { return nil } *)
| close_conn (conn : ClientConn). (* func() error { cancel(); return conn.Close() } *)

Record Client : Type := mkClient {
  host : string;
  timeoutSeconds : Z;
  insecure : bool;
  grpcConnectOnce : nat;                       (* *sync.Once: the cell's address *)
  connClose : closeFn;
  conn : option ClientConn;
  descriptorSource : option DescriptorSource
}.

(** [NewClient(host, insecure, timeoutSeconds)]. *)
Definition NewClient (host : string) (insecure : bool) (timeoutSeconds : Z) : M World Client :=
  once <- sync.new_Once ;;
  ret (mkClient host timeoutSeconds insecure once close_nil None None).

Section Client.
Variable E : Env.

(** [grpc.DialContext(connCtx, c.host, dialOptions...)]. *)
Definition DialContext (connCtx : Z) (host : string) (insecure : bool)
  : M World (ClientConn + error) :=
  fun wd =>
    let (dt, r) := grpc_DialContext E wd connCtx host insecure in
    (r, elapse (Z.of_N dt) (record (EvDial host insecure) wd)).

(** [grpcreflect.NewClient] and [grpcurl.DescriptorSourceFromServer]. *)
Definition DescriptorSourceFromServer (ctx : Z) (conn : ClientConn) (headers : list string)
  : M World DescriptorSource :=
  fun wd => (grpcurl_DescriptorSourceFromServer E wd ctx conn headers,
             record (EvReflect conn) wd).

(** [grpcurl.InvokeRPC(ctx, source, conn, serviceMethod, headers, handler, next)]. *)
Definition InvokeRPC (source : option DescriptorSource) (conn : option ClientConn)
    (serviceMethod : string) (headers : list string) (requestParser : RequestParser)
  : M World (option error) :=
  fun wd =>
    let (dt, r) := grpcurl_InvokeRPC E wd source conn serviceMethod headers requestParser in
    (r, elapse (Z.of_N dt) (record (EvInvokeRPC serviceMethod) wd)).

(** [c.connect(headers)], on [c *Client]: the error and the client as it
    is left. *)
Definition connect (c : Client) (headers : list string) : M World (option error * Client) :=
  let dialTime := 10 * time.Second in
  (* the contexts, by their timeouts *)
  let ctx := Go.mul (timeoutSeconds c) time.Second in
  let connCtx := dialTime in
  (* dialOptions: WithBlock, and WithInsecure if c.insecure *)
  (if insecure c then log_Print LogGrpcInsecure else ret tt) ;;
  log_Print (LogGrpcConnectingTo (host c)) ;;
  r <- DialContext connCtx (host c) (insecure c) ;;
  match r with
  | inr err => ret (Some (Errorf "Grpc dial: " err), c)
  | inl conn =>
      descriptorSource <- DescriptorSourceFromServer ctx conn headers ;;
      log_Print LogGrpcConnected ;;
      ret (None,
           mkClient (host c) (timeoutSeconds c) (insecure c) (grpcConnectOnce c)
                    (close_conn conn) (Some conn) (Some descriptorSource))
  end.

(** [c.Request(serviceMethod, message, headers)], on [c *Client]: the
    response and the client as it is left. *)
Definition Request (c : Client) (serviceMethod message : string) (headers : list string)
  : M World (Response * Client) :=
  (* var connErr error; c.grpcConnectOnce.Do(func() { connErr = c.connect(headers) }) *)
  '(connErr, c) <- sync.Once_Do (grpcConnectOnce c) (connect c headers) (None, c) ;;
  match connErr with
  | Some connErr =>
      log_Print (LogGrpcConnect connErr) ;;
      ret (mkResponse 0 (Some connErr) "grpc" 0, c)
  | None =>
      wd <- get ;;
      match grpcurl_RequestParserAndFormatterFor E wd (descriptorSource c) message with
      | inr err =>
          log_Print LogCannotConstruct ;;
          ret (mkResponse 0 (Some err) "grpc" 0, c)
      | inl requestParser =>
          startTime <- time.Now ;;
          err <- InvokeRPC (descriptorSource c) (conn c) serviceMethod headers requestParser ;;
          endTime <- time.Now ;;
          match err with
          | Some _ => ret (mkResponse (time.Sub endTime startTime) None "grpc" 0, c)
          | None => ret (mkResponse (time.Sub endTime startTime) None "grpc" 0, c)
          end
      end
  end.

(** Running the closure held in [connClose]. *)
Definition call_connClose (f : closeFn) : M World (option error) :=
  match f with
  | close_nil => ret None
  | close_conn conn =>
      emit EvCancel ;;
      wd <- get ;;
      emit (EvConnClose conn) ;;
      ret (conn_Close E wd conn)
  end.

(** [c.Close()], on [c Client].  "Calling close on client that has not
    established connection does not return error". *)
Definition Close (c : Client) : M World (option error) :=
  log_Print LogClosing ;;
  call_connClose (connClose c).

End Client.

End grpc.

(* ================================================================== *)
(** ** package warmup: internal/pkg/warmup/warmup.go *)

Module warmup.

(** Modelled from the spec: [grpc.Request] of [mittens/internal/pkg/grpc],
    the RPC request descriptor [{service-method name, message}].  Its
    declaration is missing; the fields are named as warmup.go reads them. *)
Record GrpcRequest : Type := mkGrpcRequest {
  ServiceMethod : string;
  Message : string
}.

(** Modelled from the spec: [Target], the endpoint with its two transport
    clients.  Its declaration is missing; warmup.go reads
    [w.Target.httpClient] and [w.Target.grpcClient].  The gRPC client is
    one connection shared by all workers: the client [grpcClient] refers
    to is a cell of the [State] below. *)
Record Target : Type := mkTarget {
  httpClient : http.Client
}.

(** [Warmup] holds any information needed for the workers to send requests. *)
Record Warmup : Type := mkWarmup {
  Target_ : Target;
  Concurrency : Z;
  HttpRequests : list http.Request;
  HttpHeaders : list string;
  GrpcRequests : list GrpcRequest;
  RequestDelayMilliseconds : Z;
  ConcurrencyTargetSeconds : Z
}.

Inductive Proto : Type := HTTP | GRPC.

(** A call of a transport client by a worker, as observed at the call
    site: the world on entry and the response returned. *)
Record Send : Type := mkSend {
  send_proto : Proto;
  send_target : string;
  send_entry : World;
  send_outcome : Response
}.

(** What the launcher of [Run] did, in order. *)
Inductive Ctl : Type :=
| CtlConnect (connErr : option error)   (* w.Target.grpcClient.Connect returned *)
| CtlSpawn (p : Proto) (i : Z).         (* go safe.Do(...) in round i *)

(** An unbuffered channel fed by a producer goroutine that picks from
    [pool] until its timer fires.  The producer is either done (it closed
    the channel) or blocked in [requestsChan <- a]. *)
Inductive chan (A : Type) : Type :=
| closed
| sending (a : A) (pool : list A) (timeout : Z).
Arguments closed {A}.
Arguments sending {A} a pool timeout.

Section Warmup.
Variable E : Env.

(** The gRPC client of [mittens/internal/pkg/grpc] that [Target] refers
    to: its type and the two methods warmup.go calls are parameters. *)
Variable G : Type.
Variable Connect : G -> list string -> M World (option error * G).
Variable SendRequest : G -> string -> string -> list string -> bool -> M World (Response * G).

(** The memory the goroutines of a run share, and the world. *)
Record State : Type := mkState {
  world : World;
  grpcClient : G;                 (* the client w.Target.grpcClient refers to *)
  requestsSentCounter : Z;        (* *requestsSentCounter *)
  wg : Z;                         (* the WaitGroup's counter *)
  goroutines : list Proto;        (* started by [go] in this run, in order *)
  sends : list Send;              (* ghost: the transport calls made *)
  ctl : list Ctl                  (* ghost: what the launcher did *)
}.

Definition liftW {A} (m : M World A) : M State A :=
  fun st =>
    let (a, wd) := m (world st) in
    (a, mkState wd (grpcClient st) (requestsSentCounter st) (wg st) (goroutines st)
                (sends st) (ctl st)).

Definition liftG {A} (m : G -> M World (A * G)) : M State A :=
  fun st =>
    let '((a, g), wd) := m (grpcClient st) (world st) in
    (a, mkState wd g (requestsSentCounter st) (wg st) (goroutines st) (sends st) (ctl st)).

Definition note_send (s : Send) : M State unit :=
  modify (fun st => mkState (world st) (grpcClient st) (requestsSentCounter st) (wg st)
                            (goroutines st) (sends st ++ [s]) (ctl st)).

Definition note_ctl (c : Ctl) : M State unit :=
  modify (fun st => mkState (world st) (grpcClient st) (requestsSentCounter st) (wg st)
                            (goroutines st) (sends st) (ctl st ++ [c])).

(** [*requestsSentCounter++]. *)
Definition incr_requestsSentCounter : M State unit :=
  modify (fun st => mkState (world st) (grpcClient st) (Go.add (requestsSentCounter st) 1)
                            (wg st) (goroutines st) (sends st) (ctl st)).

(** [var wg sync.WaitGroup], [wg.Add(n)], [wg.Done()]. *)
Definition wg_new : M State unit :=
  modify (fun st => mkState (world st) (grpcClient st) (requestsSentCounter st) 0 []
                            (sends st) (ctl st)).

Definition wg_Add (n : Z) : M State unit :=
  modify (fun st => mkState (world st) (grpcClient st) (requestsSentCounter st) (wg st + n)
                            (goroutines st) (sends st) (ctl st)).

Definition wg_Done : M State unit := wg_Add (-1).

(** [go safe.Do(func() { worker })]: the goroutine is started; the
    launcher goes on.  ([safe.Do] runs the function it is given.) *)
Definition go (p : Proto) (i : Z) : M State unit :=
  modify (fun st => mkState (world st) (grpcClient st) (requestsSentCounter st) (wg st)
                            (goroutines st ++ [p]) (sends st) (ctl st ++ [CtlSpawn p i])).

(** *** Request sources *)

(** One round of the producer's loop:
    [select { case <-timeout: close; default: requestsChan <- pool[rand.Intn(len(pool))] }]. *)
Definition produce {A} (pool : list A) (a0 : A) (timeout : Z) : M World (chan A) :=
  fun wd =>
    if time.fired timeout wd then (closed, wd)
    else
      let (number, wd') := rand.Intn E (Z.of_nat (List.length pool)) wd in
      (sending (nth (Z.to_nat number) pool a0) pool timeout, wd').

(** The body of the goroutine of [GetWarmupHTTPRequests] and of
    [GetWarmupGrpcRequests], up to its first send or close. *)
Definition requestSource {A} (pool : list A) (maxDurationSeconds : Z) : M World (chan A) :=
  match pool with
  | [] => ret closed
  | a0 :: _ =>
      timeout <- time.After (Go.mul maxDurationSeconds time.Second) ;;
      produce pool a0 timeout
  end.

Definition GetWarmupHTTPRequests (w : Warmup) (maxDurationSeconds : Z)
  : M World (chan http.Request) :=
  requestSource (HttpRequests w) maxDurationSeconds.

Definition GetWarmupGrpcRequests (w : Warmup) (maxDurationSeconds : Z)
  : M World (chan GrpcRequest) :=
  requestSource (GrpcRequests w) maxDurationSeconds.

(** Receiving from the channel, as [range] does: [None] when it is closed.
    The blocked producer hands its value over and goes round its loop. *)
Definition recv {A} (c : chan A) : M World (option A * chan A) :=
  match c with
  | closed => ret (None, closed)
  | sending a pool timeout =>
      c' <- produce pool a timeout ;;
      ret (Some a, c')
  end.

(** *** Workers *)

(** [w.Target.httpClient.SendRequest(request.Method, request.Path, headers, request.Body)]. *)
Definition http_send (w : Warmup) (request : http.Request) (headers : list string)
  : M State Response :=
  st <- get ;;
  resp <- liftW (http.SendRequest E (httpClient (Target_ w)) (http.Method request)
                                  (http.Path request) headers (http.Body request)) ;;
  note_send (mkSend HTTP (http.Path request) (world st) resp) ;;
  ret resp.

(** [w.Target.grpcClient.SendRequest(request.ServiceMethod, request.Message, headers, false)]. *)
Definition grpc_send (request : GrpcRequest) (headers : list string) : M State Response :=
  st <- get ;;
  resp <- liftG (fun g => SendRequest g (ServiceMethod request) (Message request) headers false) ;;
  note_send (mkSend GRPC (ServiceMethod request) (world st) resp) ;;
  ret resp.

(** Lines 137-147: what the HTTP worker does with a response. *)
Definition http_outcome (request : http.Request) (resp : Response) : M State unit :=
  match Err resp with
  | Some err => liftW (log_Print (LogRequestError (http.Path request) err))
  | None =>
      incr_requestsSentCounter ;;
      if Z.quot (StatusCode resp) 100 =? 2
      then liftW (log_Print (LogHttpGreen (Type_ resp) (Z.quot (Duration resp) time.Millisecond)
                                          (StatusCode resp) (http.Method request)
                                          (http.Path request)))
      else liftW (log_Print (LogHttpRed (Type_ resp) (Z.quot (Duration resp) time.Millisecond)
                                        (StatusCode resp) (http.Method request)
                                        (http.Path request)))
  end.

(** Lines 159-164: what the gRPC worker does with a response. *)
Definition grpc_outcome (request : GrpcRequest) (resp : Response) : M State unit :=
  match Err resp with
  | Some err => liftW (log_Print (LogRequestError (ServiceMethod request) err))
  | None =>
      incr_requestsSentCounter ;;
      liftW (log_Print (LogGrpcGreen (Type_ resp) (Z.quot (Duration resp) time.Millisecond)
                                     (ServiceMethod request)))
  end.

(** The body of the loop of [HTTPWarmupWorker]. *)
Definition HTTPWarmupWorker_body (w : Warmup) (request : http.Request)
    (headers : list string) (requestDelayMilliseconds : Z) : M State unit :=
  liftW (time.Sleep (Go.mul requestDelayMilliseconds time.Millisecond)) ;;
  resp <- http_send w request headers ;;
  http_outcome request resp.

(** The body of the loop of [GrpcWarmupWorker]. *)
Definition GrpcWarmupWorker_body (request : GrpcRequest)
    (headers : list string) (requestDelayMilliseconds : Z) : M State unit :=
  liftW (time.Sleep (Go.mul requestDelayMilliseconds time.Millisecond)) ;;
  resp <- grpc_send request headers ;;
  grpc_outcome request resp.

(** [HTTPWarmupWorker] sends HTTP requests to the target:
    [for request := range requests { body }; wg.Done()].  [fuel] bounds
    the number of receives. *)
Fixpoint HTTPWarmupWorker (fuel : nat) (w : Warmup) (requests : chan http.Request)
    (headers : list string) (requestDelayMilliseconds : Z) (st : State) : option State :=
  match fuel with
  | O => None
  | S fuel' =>
      let '((r, requests'), st1) := liftW (recv requests) st in
      match r with
      | None => Some (snd (wg_Done st1))
      | Some request =>
          let (_, st2) := HTTPWarmupWorker_body w request headers requestDelayMilliseconds st1 in
          HTTPWarmupWorker fuel' w requests' headers requestDelayMilliseconds st2
      end
  end.

(** [GrpcWarmupWorker] sends gRPC requests to the target. *)
Fixpoint GrpcWarmupWorker (fuel : nat) (requests : chan GrpcRequest)
    (headers : list string) (requestDelayMilliseconds : Z) (st : State) : option State :=
  match fuel with
  | O => None
  | S fuel' =>
      let '((r, requests'), st1) := liftW (recv requests) st in
      match r with
      | None => Some (snd (wg_Done st1))
      | Some request =>
          let (_, st2) := GrpcWarmupWorker_body request headers requestDelayMilliseconds st1 in
          GrpcWarmupWorker fuel' requests' headers requestDelayMilliseconds st2
      end
  end.

(** *** Ramp-up and Run *)

Definition waitForRampUp (rampUpInterval currentConcurrency : Z) : M World unit :=
  if (1 <? currentConcurrency) && (0 <? rampUpInterval)
  then time.Sleep (Go.mul rampUpInterval time.Second)
  else ret tt.

(** Lines 98-105: the HTTP rounds of the launcher. *)
Definition spawnHTTP (w : Warmup) (rampUpInterval : Z) : M State unit :=
  for_1_to (Concurrency w) (fun i =>
    liftW (waitForRampUp rampUpInterval i) ;;
    liftW (log_Print LogSpawnHTTP) ;;
    wg_Add 1 ;;
    go HTTP i).

(** Lines 116-123: the gRPC rounds of the launcher. *)
Definition spawnGrpc (w : Warmup) (rampUpInterval : Z) : M State unit :=
  for_1_to (Concurrency w) (fun i =>
    liftW (waitForRampUp rampUpInterval i) ;;
    liftW (log_Print LogSpawnGrpc) ;;
    wg_Add 1 ;;
    go GRPC i).

(** Lines 108-125: the gRPC phase of the launcher. *)
Definition grpcPhase (w : Warmup) (rampUpInterval : Z) : M State unit :=
  liftW (log_Print LogGrpcConnecting) ;;
  connErr <- liftG (fun g => Connect g (HttpHeaders w)) ;;
  note_ctl (CtlConnect connErr) ;;
  match connErr with
  | Some connErr => liftW (log_Print (LogGrpcConnectError connErr))
  | None => spawnGrpc w rampUpInterval
  end.

(** [Run] up to, and not including, [wg.Wait()]: the launcher. *)
Definition launch (w : Warmup) (hasHttpRequests hasGrpcRequests : bool) (st : State)
  : outcome State :=
  let (_, st) := liftW (t <- time.Now ;; rand.Seed t) st in
  let (_, st) := wg_new st in
  match Go.div (ConcurrencyTargetSeconds w) (Concurrency w) with
  | None => Panicked divide_error
  | Some rampUpInterval =>
      let (_, st) := (if hasHttpRequests then spawnHTTP w rampUpInterval else ret tt) st in
      let (_, st) := (if hasGrpcRequests then grpcPhase w rampUpInterval else ret tt) st in
      Returned st
  end.

(** What a goroutine started by [Run] executes. *)
Definition goroutine (fuel : nat) (w : Warmup) (maxDurationSeconds : Z) (p : Proto)
    (st : State) : option State :=
  match p with
  | HTTP =>
      let (requests, st') := liftW (GetWarmupHTTPRequests w maxDurationSeconds) st in
      HTTPWarmupWorker fuel w requests (HttpHeaders w) (RequestDelayMilliseconds w) st'
  | GRPC =>
      let (requests, st') := liftW (GetWarmupGrpcRequests w maxDurationSeconds) st in
      GrpcWarmupWorker fuel requests (HttpHeaders w) (RequestDelayMilliseconds w) st'
  end.

(** [wg.Wait()].  With no goroutine started it returns at once; with one,
    that goroutine runs to its end.  Several goroutines run interleaved,
    which this sequential reading does not follow: the state the launcher
    left is handed back as [Interleaved]. *)
Definition wg_Wait (fuel : nat) (w : Warmup) (maxDurationSeconds : Z) (st : State)
  : outcome State :=
  match goroutines st with
  | [] => Returned st
  | [p] =>
      match goroutine fuel w maxDurationSeconds p st with
      | Some st' => Returned st'
      | None => OutOfFuel
      end
  | _ => Interleaved st
  end.

(** [Run] sends requests to the target using goroutines. *)
Definition Run (fuel : nat) (w : Warmup) (hasHttpRequests hasGrpcRequests : bool)
    (maxDurationSeconds : Z) (st : State) : outcome State :=
  match launch w hasHttpRequests hasGrpcRequests st with
  | Returned st' => wg_Wait fuel w maxDurationSeconds st'
  | other => other
  end.

End Warmup.

Arguments mkState {G}.
Arguments world {G}.
Arguments grpcClient {G}.
Arguments requestsSentCounter {G}.
Arguments wg {G}.
Arguments goroutines {G}.
Arguments sends {G}.
Arguments ctl {G}.
Arguments liftW {G A}.
Arguments liftG {G A}.
Arguments note_send {G}.
Arguments note_ctl {G}.
Arguments incr_requestsSentCounter {G}.
Arguments wg_new {G}.
Arguments wg_Add {G}.
Arguments wg_Done {G}.
Arguments go {G}.
Arguments http_send E {G}.
Arguments grpc_send {G}.
Arguments http_outcome {G}.
Arguments grpc_outcome {G}.
Arguments HTTPWarmupWorker_body E {G}.
Arguments GrpcWarmupWorker_body {G}.
Arguments HTTPWarmupWorker E {G}.
Arguments GrpcWarmupWorker E {G}.
Arguments spawnHTTP {G}.
Arguments spawnGrpc {G}.
Arguments grpcPhase {G}.
Arguments launch {G}.
Arguments goroutine E {G}.
Arguments wg_Wait E {G}.
Arguments Run E {G}.

End warmup.

(* ================================================================== *)
(** ** Scenarios: concrete environments and inputs *)

Module Scenario.

Import time.

Definition world0 : World := mkWorld 0 [] [] 0 O.

(** An environment in which every request can be built, the server
    answers 200 after 3 ms and its body takes 5 ms to drain, dialing ends
    as [dial] says after 1 ms, a parser is always obtained, and an RPC
    ends as [invoke] says after 2 s. *)
Definition env (dial : ClientConn + error) (invoke : option error) : Env :=
  mkEnv
    (fun method url body => inl (mkHttpRequest method url body "" []))
    (fun _ _ => (3000000%N, inl (mkHttpResponse 200)))
    (fun _ _ => (5000000%N, None))
    (fun _ => [])
    (fun _ v => v)
    (fun _ _ _ _ => (1000000%N, dial))
    (fun _ _ _ _ => source_id 0)
    (fun _ _ _ => inl (parser_id 0))
    (fun _ _ _ _ _ _ => (2000000000%N, invoke))
    (fun _ _ => None)
    (fun _ k => Z.of_nat k).

Definition env_up : Env := env (inl (conn_id 0)) None.
Definition env_refused : Env := env (inr "connection refused"%string) None.
Definition env_unavailable : Env := env (inl (conn_id 0)) (Some "rpc error: Unavailable"%string).

Definition localhost : http.Client := http.NewClient "http://localhost:8080/" false.

Definition get_a : http.Request := http.mkRequest "GET" "/a" None.
Definition get_b : http.Request := http.mkRequest "GET" "/b" None.

Definition ping : warmup.GrpcRequest := warmup.mkGrpcRequest "grpc.health.v1.Health/Check" "{}".

(** A state with nothing done yet: the counter at 0. *)
Definition state0 {G} (g : G) (wd : World) : warmup.State G :=
  warmup.mkState wd g 0 0 [] [] [].

(** One worker, a 600 ms pacing delay, two HTTP requests in the pool. *)
Definition w_http : warmup.Warmup :=
  warmup.mkWarmup (warmup.mkTarget localhost) 1 [get_a; get_b] [] [] 600 0.

(** Three workers over a ramp window of six seconds. *)
Definition w_ramp : warmup.Warmup :=
  warmup.mkWarmup (warmup.mkTarget localhost) 3 [get_a; get_b] [] [ping] 0 6.

(** One worker, no pacing delay, one RPC in the pool. *)
Definition w_grpc : warmup.Warmup :=
  warmup.mkWarmup (warmup.mkTarget localhost) 1 [] [] [ping] 0 0.

(** A concurrency below zero. *)
Definition w_negative : warmup.Warmup :=
  warmup.mkWarmup (warmup.mkTarget localhost) (-1) [get_a; get_b] [] [] 0 6.

(** A run without gRPC requests never uses the gRPC client. *)
Definition no_Connect : unit -> list string -> M World (option error * unit) :=
  fun g _ => ret (None, g).

Definition no_SendRequest
  : unit -> string -> string -> list string -> bool -> M World (Response * unit) :=
  fun g _ _ _ _ => ret (mkResponse 0 None "grpc" 0, g).

(** A gRPC client whose connect is refused. *)
Definition refused_Connect : unit -> list string -> M World (option error * unit) :=
  fun g _ => ret (Some "connection refused"%string, g).

(** The client of pkg/grpc as the transport of the gRPC worker. *)
Definition Request_transport (E : Env)
  : grpc.Client -> string -> string -> list string -> bool -> M World (Response * grpc.Client) :=
  fun c serviceMethod message headers _ => grpc.Request E c serviceMethod message headers.

End Scenario.

(* ================================================================== *)
(** ** Reasoning about the state monad *)

Ltac run :=
  cbv beta iota zeta delta
    [bind ret get modify emit log_Print time.Now time.After fst snd] in *.

Lemma bind_apply {S A B} (m : M S A) (k : A -> M S B) (s : S) :
  bind m k s = k (fst (m s)) (snd (m s)).
Proof. unfold bind. destruct (m s); reflexivity. Qed.

Lemma wrap_small (z : Z) : Go.in_range z -> Go.wrap z = z.
Proof.
  unfold Go.in_range, Go.wrap, Go.min_int, Go.max_int. intros H.
  rewrite Z.mod_small by lia. lia.
Qed.

(* ================================================================== *)
(** ** The HTTP client: what the reported duration measures *)

Section HttpDuration.
Variable E : Env.

(** The URL [SendRequest] builds. *)
Definition url_of (c : http.Client) (path : string) : string :=
  String.append (http.host c) (String.append "/" (strings.TrimLeft path "/")).

(** C4 (as amended): for every HTTP send that constructs its request, the
    reported duration is the wall-clock time of the [Do] call alone, from
    just before the request is sent until [Do] returns; when [Do] succeeds
    the body is drained after the end of the measured interval, and the
    time the drain takes is added to the clock but not to the duration. *)
Theorem SendRequest_duration_is_Do
    (c : http.Client) (method path : string) (headers : list string)
    (requestBody : option string) (wd : World) (req : HttpRequest) :
  http_NewRequest E method (url_of c path) requestBody = inl req ->
  let sent := http.withHeaders E wd headers req in
  let tDo := Z.of_N (fst (httpClient_Do E wd sent)) in
  let '(r, wd') := http.SendRequest E c method path headers requestBody wd in
  Duration r = time.Sub (now wd + tDo) (now wd) /\
  forall resp, snd (httpClient_Do E wd sent) = inl resp ->
    let after_Do := elapse tDo (record (EvHttpDo sent) wd) in
    now wd' = now wd + tDo + Z.of_N (fst (io_Copy_Discard E after_Do resp)).
Proof.
  intros Hreq sent tDo.
  unfold http.SendRequest. fold (url_of c path). rewrite Hreq.
  run. unfold http.Do. fold sent.
  destruct (httpClient_Do E wd sent) as [dt [resp | err]] eqn:HDo; cbn [fst snd] in *.
  - unfold http.Copy_Discard.
    fold tDo.
    destruct (io_Copy_Discard E _ resp) as [dt' cerr] eqn:HCopy.
    assert (Hclock :
      forall resp0, @inl HttpResponse error resp = inl resp0 ->
        now (elapse tDo (record (EvHttpDo sent) wd)) + Z.of_N dt' =
        now wd + tDo +
        Z.of_N (fst (io_Copy_Discard E (elapse tDo (record (EvHttpDo sent) wd)) resp0))).
    { intros resp0 Heq. inversion Heq; subst resp0. rewrite HCopy. reflexivity. }
    destruct cerr; cbn; (split; [reflexivity | exact Hclock]).
  - cbn. split; [reflexivity | intros resp Habs; discriminate Habs].
Qed.

End HttpDuration.

(** Witness for C4's amended statement: GET /a against the scenario server. *)
Lemma SendRequest_duration_is_Do_witness :
  let '(r, wd') :=
    http.SendRequest Scenario.env_up Scenario.localhost "GET" "/a" [] None Scenario.world0 in
  Duration r = time.Sub (now Scenario.world0 + 3000000) (now Scenario.world0) /\
  forall resp, inl (mkHttpResponse 200) = @inl HttpResponse error resp ->
    now wd' = now Scenario.world0 + 3000000 + 5000000.
Proof.
  exact (SendRequest_duration_is_Do Scenario.env_up Scenario.localhost "GET" "/a" [] None
           Scenario.world0 (mkHttpRequest "GET" "http://localhost:8080/a" None "" [])
           eq_refl).
Defined.

(** C4 (as stated) fails: against the scenario server the request is
    built at instant 0 and its body is fully drained at 8 ms, while the
    duration reported is the 3 ms the [Do] call took. *)
Lemma SendRequest_duration_excludes_drain :
  let '(r, wd') :=
    http.SendRequest Scenario.env_up Scenario.localhost "GET" "/a" [] None Scenario.world0 in
  Err r = None /\
  now Scenario.world0 = 0 /\ now wd' = 8 * time.Millisecond /\
  Duration r = 3 * time.Millisecond /\
  Duration r <> time.Sub (now wd') (now Scenario.world0).
Proof.
  vm_compute. repeat split; discriminate.
Qed.

(* ================================================================== *)
(** ** The gRPC client: Close, connect-once, and the error of a call *)

Section GrpcClient.
Variable E : Env.

(** The clients a program can hold: what [NewClient] returns and what a
    call of [Request] leaves behind. *)
Inductive client_of : grpc.Client -> Prop :=
| client_new host insecure timeoutSeconds wd :
    client_of (fst (grpc.NewClient host insecure timeoutSeconds wd))
| client_request c serviceMethod message headers wd :
    client_of c ->
    client_of (snd (fst (grpc.Request E c serviceMethod message headers wd))).

(** The world in which [connect] dials. *)
Definition dial_world (c : grpc.Client) (wd : World) : World :=
  record (EvLog (LogGrpcConnectingTo (grpc.host c)))
         (if grpc.insecure c then record (EvLog LogGrpcInsecure) wd else wd).

(** [connect] changes the client only when the dial succeeds, and then it
    installs the connection together with the closure that closes it. *)
Lemma connect_client (c : grpc.Client) (headers : list string) (wd : World) :
  let '((connErr, c'), _) := grpc.connect E c headers wd in
  match snd (grpc_DialContext E (dial_world c wd) (10 * time.Second) (grpc.host c) (grpc.insecure c)) with
  | inr err => connErr = Some (Errorf "Grpc dial: " err) /\ c' = c
  | inl conn =>
      connErr = None /\ grpc.conn c' = Some conn /\ grpc.connClose c' = grpc.close_conn conn /\
      grpc.grpcConnectOnce c' = grpc.grpcConnectOnce c
  end.
Proof.
  unfold grpc.connect, grpc.DialContext, grpc.DescriptorSourceFromServer, dial_world.
  run. destruct (grpc.insecure c); run;
  match goal with
  | |- context [grpc_DialContext E ?w ?t ?h ?i] =>
      destruct (grpc_DialContext E w t h i) as [dt [conn | err]]
  end; cbn; auto.
Qed.

(** [Request] after the [Once]: lines 88-109, given [connErr]. *)
Definition after_Once (connErr : option error) (c : grpc.Client)
    (serviceMethod message : string) (headers : list string) : M World (Response * grpc.Client) :=
  match connErr with
  | Some connErr =>
      log_Print (LogGrpcConnect connErr) ;;
      ret (mkResponse 0 (Some connErr) "grpc" 0, c)
  | None =>
      wd <- get ;;
      match grpcurl_RequestParserAndFormatterFor E wd (grpc.descriptorSource c) message with
      | inr err =>
          log_Print LogCannotConstruct ;;
          ret (mkResponse 0 (Some err) "grpc" 0, c)
      | inl requestParser =>
          startTime <- time.Now ;;
          err <- grpc.InvokeRPC E (grpc.descriptorSource c) (grpc.conn c) serviceMethod headers
                   requestParser ;;
          endTime <- time.Now ;;
          match err with
          | Some _ => ret (mkResponse (time.Sub endTime startTime) None "grpc" 0, c)
          | None => ret (mkResponse (time.Sub endTime startTime) None "grpc" 0, c)
          end
      end
  end.

Lemma Request_unfold (c : grpc.Client) (serviceMethod message : string)
    (headers : list string) (wd : World) :
  grpc.Request E c serviceMethod message headers wd =
  let '((connErr, c1), wd1) :=
    sync.Once_Do (grpc.grpcConnectOnce c) (grpc.connect E c headers) (None, c) wd in
  after_Once connErr c1 serviceMethod message headers wd1.
Proof.
  unfold grpc.Request, after_Once. unfold bind at 1.
  destruct (sync.Once_Do _ _ _ wd) as [[connErr c1] wd1]. reflexivity.
Qed.

(** With no connect error the call goes on to the parser and, with a
    parser, to the invocation; its [Err] is the parser's error or nil. *)
Lemma after_Once_nil (c : grpc.Client) (serviceMethod message : string)
    (headers : list string) (wd : World) :
  let '((r, c'), wd') := after_Once None c serviceMethod message headers wd in
  c' = c /\
  match grpcurl_RequestParserAndFormatterFor E wd (grpc.descriptorSource c) message with
  | inr err => Err r = Some err /\ wd' = record (EvLog LogCannotConstruct) wd
  | inl p =>
      Err r = None /\
      wd' = elapse (Z.of_N (fst (grpcurl_InvokeRPC E wd (grpc.descriptorSource c) (grpc.conn c)
                                   serviceMethod headers p)))
                   (record (EvInvokeRPC serviceMethod) wd)
  end.
Proof.
  unfold after_Once. run.
  destruct (grpcurl_RequestParserAndFormatterFor E wd (grpc.descriptorSource c) message)
    as [p | err].
  - unfold grpc.InvokeRPC.
    destruct (grpcurl_InvokeRPC E wd (grpc.descriptorSource c) (grpc.conn c) serviceMethod
                headers p) as [dt [e|]]; cbn; auto.
  - cbn. auto.
Qed.

Lemma after_Once_client (connErr : option error) (c : grpc.Client)
    (serviceMethod message : string) (headers : list string) (wd : World) :
  snd (fst (after_Once connErr c serviceMethod message headers wd)) = c.
Proof.
  destruct connErr as [e|].
  - reflexivity.
  - pose proof (after_Once_nil c serviceMethod message headers wd) as H.
    destruct (after_Once None c serviceMethod message headers wd) as [[r c'] wd'].
    cbn. tauto.
Qed.

(** What a call of [Request] does to the client: nothing, unless this is
    the first call and its dial succeeded. *)
Lemma Request_client (c : grpc.Client) (serviceMethod message : string)
    (headers : list string) (wd : World) :
  let c' := snd (fst (grpc.Request E c serviceMethod message headers wd)) in
  c' = c \/
  (sync.done (grpc.grpcConnectOnce c) wd = false /\
   exists conn,
     snd (grpc_DialContext E (dial_world c wd) (10 * time.Second) (grpc.host c) (grpc.insecure c)) = inl conn /\
     grpc.conn c' = Some conn /\ grpc.connClose c' = grpc.close_conn conn).
Proof.
  cbv zeta. rewrite Request_unfold. unfold sync.Once_Do.
  destruct (sync.done (grpc.grpcConnectOnce c) wd) eqn:Hdone.
  - left. apply after_Once_client.
  - pose proof (connect_client c headers wd) as Hc.
    destruct (grpc.connect E c headers wd) as [[connErr c1] wd1].
    rewrite after_Once_client.
    destruct (snd (grpc_DialContext E (dial_world c wd) (10 * time.Second) (grpc.host c) (grpc.insecure c)))
      as [conn | err] eqn:Hdial.
    + destruct Hc as (_ & Hconn & Hclose & _). right. split; [reflexivity|].
      exists conn. auto.
    + destruct Hc as (_ & ->). left. reflexivity.
Qed.

(** A client without a connection still has the closure it was built with. *)
Lemma unconnected_close_nil (c : grpc.Client) :
  client_of c -> grpc.conn c = None -> grpc.connClose c = grpc.close_nil.
Proof.
  induction 1 as [host insecure t wd | c sm msg hs wd Hc IH]; intros Hnone.
  - reflexivity.
  - destruct (Request_client c sm msg hs wd) as [Heq | (_ & conn & _ & Hconn & _)].
    + rewrite Heq in *. auto.
    + rewrite Hconn in Hnone. discriminate.
Qed.

(** C10: calling [Close] on a client that has never established a
    connection returns no error: [NewClient] binds [connClose] to the
    closure that returns nil, and a call of [Request] rebinds it only
    when its dial succeeded (and then the client has a connection). *)
Theorem Close_unconnected_no_error (c : grpc.Client) (wd : World) :
  client_of c -> grpc.conn c = None ->
  fst (grpc.Close E c wd) = None /\
  grpc.connClose c = grpc.close_nil /\
  (forall host insecure timeoutSeconds wd0,
     grpc.connClose (fst (grpc.NewClient host insecure timeoutSeconds wd0)) = grpc.close_nil) /\
  (forall serviceMethod message headers wd1,
     let c' := snd (fst (grpc.Request E c serviceMethod message headers wd1)) in
     grpc.connClose c' <> grpc.close_nil -> grpc.conn c' <> None).
Proof.
  intros Hc Hnone.
  pose proof (unconnected_close_nil c Hc Hnone) as Hnil.
  repeat split.
  - unfold grpc.Close. rewrite Hnil. reflexivity.
  - exact Hnil.
  - intros sm msg hs wd1 c' Hne Hnone'.
    apply Hne. apply unconnected_close_nil; [constructor; exact Hc | exact Hnone'].
Qed.

(** After the first call the [Once] cell is done, so [connect] is not run
    and [connErr] keeps its zero value: the call goes on to the parser. *)
Lemma Request_after_first (c : grpc.Client) (serviceMethod message : string)
    (headers : list string) (wd : World) :
  sync.done (grpc.grpcConnectOnce c) wd = true ->
  grpc.Request E c serviceMethod message headers wd =
  after_Once None c serviceMethod message headers wd.
Proof.
  intros Hdone. rewrite Request_unfold. unfold sync.Once_Do. rewrite Hdone. reflexivity.
Qed.

(** The error of the invocation itself never reaches the response: once a
    parser has been obtained, [Err] is nil whatever [InvokeRPC] returned. *)
Lemma Request_drops_invoke_error (c : grpc.Client) (serviceMethod message : string)
    (headers : list string) (wd : World) (p : RequestParser) :
  sync.done (grpc.grpcConnectOnce c) wd = true ->
  grpcurl_RequestParserAndFormatterFor E wd (grpc.descriptorSource c) message = inl p ->
  Err (fst (fst (grpc.Request E c serviceMethod message headers wd))) = None.
Proof.
  intros Hdone Hp. rewrite Request_after_first by exact Hdone.
  pose proof (after_Once_nil c serviceMethod message headers wd) as H.
  destruct (after_Once None c serviceMethod message headers wd) as [[r c'] wd'].
  rewrite Hp in H. cbn. tauto.
Qed.

(** *** Connect-once *)

Definition is_dial (e : Event) : bool :=
  match e with EvDial _ _ => true | _ => false end.

(** The number of dial attempts made so far. *)
Definition dials (wd : World) : nat := List.length (filter is_dial (trace wd)).

(** A sequence of calls of [Request] on one client. *)
Fixpoint Requests (c : grpc.Client) (calls : list (string * string * list string))
  : M World (list Response * grpc.Client) :=
  match calls with
  | [] => ret ([], c)
  | (serviceMethod, message, headers) :: rest =>
      '(r, c1) <- grpc.Request E c serviceMethod message headers ;;
      '(rs, c2) <- Requests c1 rest ;;
      ret (r :: rs, c2)
  end.

Lemma dials_record e wd :
  dials (record e wd) = (dials wd + if is_dial e then 1 else 0)%nat.
Proof.
  unfold dials. cbn. rewrite filter_app, length_app. cbn.
  destruct (is_dial e); reflexivity.
Qed.

Lemma connect_world (c : grpc.Client) (headers : list string) (wd : World) :
  let wd' := snd (grpc.connect E c headers wd) in
  onces wd' = onces wd /\ dials wd' = S (dials wd).
Proof.
  unfold grpc.connect, grpc.DialContext, grpc.DescriptorSourceFromServer. run.
  destruct (grpc.insecure c);
  match goal with
  | |- context [grpc_DialContext E ?w ?t ?h ?i] =>
      destruct (grpc_DialContext E w t h i) as [dt [conn | err]]
  end; cbn [snd onces elapse record];
  (split; [reflexivity|]);
  unfold dials; cbn [trace elapse record];
  repeat rewrite filter_app; repeat rewrite length_app; cbn; lia.
Qed.

Lemma after_Once_world (connErr : option error) (c : grpc.Client)
    (serviceMethod message : string) (headers : list string) (wd : World) :
  let wd' := snd (after_Once connErr c serviceMethod message headers wd) in
  onces wd' = onces wd /\ dials wd' = dials wd.
Proof.
  destruct connErr as [e|]; cbv zeta.
  - change (snd (after_Once (Some e) c serviceMethod message headers wd))
      with (record (EvLog (LogGrpcConnect e)) wd).
    rewrite dials_record. cbn. split; [reflexivity | lia].
  - pose proof (after_Once_nil c serviceMethod message headers wd) as H.
    destruct (after_Once None c serviceMethod message headers wd) as [[r c'] wd'].
    destruct H as [_ H]. cbn [snd].
    destruct (grpcurl_RequestParserAndFormatterFor E wd (grpc.descriptorSource c) message);
      destruct H as [_ ->].
    + split; [reflexivity|]. unfold dials. cbn. rewrite filter_app, length_app. cbn. lia.
    + split; [reflexivity|]. rewrite dials_record. cbn. lia.
Qed.

Lemma set_nth_length o l : List.length (sync.set_nth o l) = List.length l.
Proof.
  revert o. induction l as [|b l IH]; intros [|o]; cbn; auto.
Qed.

Lemma set_nth_done o l : (o < List.length l)%nat -> nth o (sync.set_nth o l) false = true.
Proof.
  revert o. induction l as [|b l IH]; intros [|o] H; cbn in *; try lia; auto.
  apply IH. lia.
Qed.

(** The client's [Once] cell has been allocated. *)
Definition allocated (c : grpc.Client) (wd : World) : Prop :=
  (grpc.grpcConnectOnce c < List.length (onces wd))%nat.

(** One call: the cell is done afterwards, and a dial was attempted if
    and only if the cell was not done before. *)
Lemma Request_dials (c : grpc.Client) (serviceMethod message : string)
    (headers : list string) (wd : World) :
  allocated c wd ->
  let '((_, c'), wd') := grpc.Request E c serviceMethod message headers wd in
  allocated c' wd' /\
  sync.done (grpc.grpcConnectOnce c') wd' = true /\
  dials wd' = (dials wd + if sync.done (grpc.grpcConnectOnce c) wd then 0 else 1)%nat.
Proof.
  intros Halloc. rewrite Request_unfold. unfold sync.Once_Do.
  destruct (sync.done (grpc.grpcConnectOnce c) wd) eqn:Hdone.
  - pose proof (after_Once_world None c serviceMethod message headers wd) as Hw.
    pose proof (after_Once_client None c serviceMethod message headers wd) as Hc.
    destruct (after_Once None c serviceMethod message headers wd) as [[r c'] wd'].
    cbn in Hw, Hc. subst c'. destruct Hw as [Ho Hd].
    unfold allocated, sync.done in *. rewrite Ho. repeat split; auto. lia.
  - pose proof (connect_world c headers wd) as Hcw.
    pose proof (connect_client c headers wd) as Hcc.
    destruct (grpc.connect E c headers wd) as [[connErr c1] wd1]. cbn in Hcw.
    destruct Hcw as [Ho1 Hd1].
    assert (Honce : grpc.grpcConnectOnce c1 = grpc.grpcConnectOnce c).
    { destruct (snd (grpc_DialContext E (dial_world c wd) (10 * time.Second) (grpc.host c) (grpc.insecure c))).
      - tauto.
      - destruct Hcc as [_ ->]. reflexivity. }
    set (wd2 := sync.mark (grpc.grpcConnectOnce c) wd1).
    pose proof (after_Once_world connErr c1 serviceMethod message headers wd2) as Hw.
    pose proof (after_Once_client connErr c1 serviceMethod message headers wd2) as Hc.
    destruct (after_Once connErr c1 serviceMethod message headers wd2) as [[r c'] wd'].
    cbn in Hw, Hc. subst c'. destruct Hw as [Ho Hd].
    unfold allocated, sync.done in *. rewrite Ho, Hd, Honce.
    subst wd2. unfold sync.mark, dials in *. cbn [onces trace] in *.
    rewrite set_nth_length, Ho1. repeat split.
    + exact Halloc.
    + apply set_nth_done. exact Halloc.
    + rewrite Hd1. lia.
Qed.

Lemma Requests_dials (calls : list (string * string * list string)) :
  forall (c : grpc.Client) (wd : World),
  allocated c wd ->
  (dials (snd (Requests c calls wd)) <=
   dials wd + if sync.done (grpc.grpcConnectOnce c) wd then 0 else 1)%nat.
Proof.
  induction calls as [|[[sm msg] hs] rest IH]; intros c wd Halloc.
  - cbn. lia.
  - cbn [Requests]. unfold bind at 1.
    pose proof (Request_dials c sm msg hs wd Halloc) as H1.
    destruct (grpc.Request E c sm msg hs wd) as [[r c1] wd1].
    destruct H1 as (Halloc1 & Hdone1 & Hd1).
    specialize (IH c1 wd1 Halloc1). rewrite Hdone1 in IH.
    unfold bind. destruct (Requests c1 rest wd1) as [[rs c2] wd2]. cbn in *. lia.
Qed.

(** X2: whatever calls are made on a client built by [NewClient], at most
    one dial is ever attempted. *)
Lemma at_most_one_dial (host : string) (insecure : bool) (timeoutSeconds : Z)
    (calls : list (string * string * list string)) (wd : World) :
  let '(c, wd0) := grpc.NewClient host insecure timeoutSeconds wd in
  (dials (snd (Requests c calls wd0)) <= dials wd + 1)%nat.
Proof.
  cbn.
  match goal with |- (dials (snd (Requests ?c _ ?w)) <= _)%nat =>
    pose proof (Requests_dials calls c w) as H end.
  unfold allocated in H. cbn in H. rewrite length_app in H. cbn in H.
  specialize (H ltac:(lia)).
  unfold dials in *. cbn [trace] in *.
  destruct (nth _ _ _) in H; lia.
Qed.

End GrpcClient.

(** Witness for C10: a freshly built client. *)
Lemma Close_unconnected_no_error_witness :
  let c := fst (grpc.NewClient "localhost:50051" true 5 Scenario.world0) in
  fst (grpc.Close Scenario.env_up c Scenario.world0) = None /\
  grpc.connClose c = grpc.close_nil /\
  (forall host insecure timeoutSeconds wd0,
     grpc.connClose (fst (grpc.NewClient host insecure timeoutSeconds wd0)) = grpc.close_nil) /\
  (forall serviceMethod message headers wd1,
     let c' := snd (fst (grpc.Request Scenario.env_up c serviceMethod message headers wd1)) in
     grpc.connClose c' <> grpc.close_nil -> grpc.conn c' <> None).
Proof.
  exact (Close_unconnected_no_error Scenario.env_up _ Scenario.world0
           (client_new Scenario.env_up "localhost:50051" true 5 Scenario.world0) eq_refl).
Defined.

(** C3 (the code departs from it): the first call's connect fails with
    "connection refused" and the call returns that error; the second call
    on the same client does not: the [Once] is done, [connErr] is nil, and
    the call goes on to invoke the RPC on a client that has no connection.
    One dial was attempted in all. *)
Theorem Request_after_failed_connect_proceeds :
  let '(c, wd0) := grpc.NewClient "localhost:50051" true 5 Scenario.world0 in
  let '((r1, c1), wd1) :=
    grpc.Request Scenario.env_refused c "grpc.health.v1.Health/Check" "{}" [] wd0 in
  let '((r2, c2), wd2) :=
    grpc.Request Scenario.env_refused c1 "grpc.health.v1.Health/Check" "{}" [] wd1 in
  Err r1 = Some "Grpc dial: connection refused"%string /\
  Err r2 = None /\
  grpc.conn c2 = None /\
  dials wd2 = 1%nat /\
  In (EvInvokeRPC "grpc.health.v1.Health/Check") (trace wd2).
Proof.
  vm_compute. repeat split. auto 20.
Qed.

(* ================================================================== *)
(** ** The workers *)

Section Workers.
Variable E : Env.
Variable G : Type.
Variable SendRequest : G -> string -> string -> list string -> bool -> M World (Response * G).

(** The pacing delay as the workers pass it to [time.Sleep]. *)
Definition pacing (requestDelayMilliseconds : Z) : Z :=
  Go.mul requestDelayMilliseconds time.Millisecond.

(** The world in which a worker that received its request in [wd] calls
    the transport client. *)
Definition paced (requestDelayMilliseconds : Z) (wd : World) : World :=
  snd (time.Sleep (pacing requestDelayMilliseconds) wd).

(** The counter after an outcome. *)
Definition counted (resp : Response) (n : Z) : Z :=
  match Err resp with
  | Some _ => n
  | None => Go.add n 1
  end.

(** The line a worker logs for an outcome. *)
Definition http_log (request : http.Request) (resp : Response) : LogMsg :=
  match Err resp with
  | Some err => LogRequestError (http.Path request) err
  | None =>
      if Z.quot (StatusCode resp) 100 =? 2
      then LogHttpGreen (Type_ resp) (Z.quot (Duration resp) time.Millisecond)
                        (StatusCode resp) (http.Method request) (http.Path request)
      else LogHttpRed (Type_ resp) (Z.quot (Duration resp) time.Millisecond)
                      (StatusCode resp) (http.Method request) (http.Path request)
  end.

Definition grpc_log (request : warmup.GrpcRequest) (resp : Response) : LogMsg :=
  match Err resp with
  | Some err => LogRequestError (warmup.ServiceMethod request) err
  | None => LogGrpcGreen (Type_ resp) (Z.quot (Duration resp) time.Millisecond)
                         (warmup.ServiceMethod request)
  end.

(** The number of outcomes without an error among some sends. *)
Definition successes (l : list warmup.Send) : nat :=
  List.length (filter (fun s => match Err (warmup.send_outcome s) with
                                | None => true
                                | Some _ => false
                                end) l).

Ltac unfold_worker :=
  unfold warmup.HTTPWarmupWorker_body, warmup.GrpcWarmupWorker_body,
         warmup.http_send, warmup.grpc_send, warmup.http_outcome, warmup.grpc_outcome,
         warmup.liftW, warmup.liftG, warmup.note_send, warmup.incr_requestsSentCounter,
         warmup.wg_Done, warmup.wg_Add, paced, pacing, counted, http_log, grpc_log in *.

(** One round of the HTTP worker. *)
Lemma HTTPWarmupWorker_body_spec (w : warmup.Warmup) (request : http.Request)
    (headers : list string) (delay : Z) (st : warmup.State G) :
  let entry := paced delay (warmup.world st) in
  let '(resp, wd2) :=
    http.SendRequest E (warmup.httpClient (warmup.Target_ w)) (http.Method request)
                     (http.Path request) headers (http.Body request) entry in
  let st' := snd (warmup.HTTPWarmupWorker_body E w request headers delay st) in
  warmup.world st' = record (EvLog (http_log request resp)) wd2 /\
  warmup.requestsSentCounter st' = counted resp (warmup.requestsSentCounter st) /\
  warmup.sends st' = warmup.sends st ++ [warmup.mkSend warmup.HTTP (http.Path request) entry resp] /\
  warmup.grpcClient st' = warmup.grpcClient st /\
  warmup.wg st' = warmup.wg st /\
  warmup.goroutines st' = warmup.goroutines st /\
  warmup.ctl st' = warmup.ctl st.
Proof.
  unfold_worker. unfold time.Sleep. run.
  destruct (http.SendRequest E _ _ _ _ _ _) as [resp wd2]. cbn.
  destruct (Err resp); cbn; [| destruct (Z.quot (StatusCode resp) 100 =? 2)]; cbn;
    repeat split.
Qed.

(** One round of the gRPC worker. *)
Lemma GrpcWarmupWorker_body_spec (request : warmup.GrpcRequest)
    (headers : list string) (delay : Z) (st : warmup.State G) :
  let entry := paced delay (warmup.world st) in
  let '((resp, g), wd2) :=
    SendRequest (warmup.grpcClient st) (warmup.ServiceMethod request)
                (warmup.Message request) headers false entry in
  let st' := snd (warmup.GrpcWarmupWorker_body SendRequest request headers delay st) in
  warmup.world st' = record (EvLog (grpc_log request resp)) wd2 /\
  warmup.requestsSentCounter st' = counted resp (warmup.requestsSentCounter st) /\
  warmup.sends st' =
    warmup.sends st ++ [warmup.mkSend warmup.GRPC (warmup.ServiceMethod request) entry resp] /\
  warmup.grpcClient st' = g /\
  warmup.wg st' = warmup.wg st /\
  warmup.goroutines st' = warmup.goroutines st /\
  warmup.ctl st' = warmup.ctl st.
Proof.
  unfold_worker. unfold time.Sleep. run.
  destruct (SendRequest _ _ _ _ _ _) as [[resp g] wd2]. cbn.
  destruct (Err resp); cbn; repeat split.
Qed.

(** Receiving touches the world only. *)
Lemma liftW_frame {A} (m : M World A) (st : warmup.State G) :
  let st' := snd (warmup.liftW m st) in
  fst (warmup.liftW m st) = fst (m (warmup.world st)) /\
  warmup.world st' = snd (m (warmup.world st)) /\
  warmup.requestsSentCounter st' = warmup.requestsSentCounter st /\
  warmup.sends st' = warmup.sends st /\
  warmup.grpcClient st' = warmup.grpcClient st /\
  warmup.wg st' = warmup.wg st /\
  warmup.goroutines st' = warmup.goroutines st /\
  warmup.ctl st' = warmup.ctl st.
Proof.
  unfold warmup.liftW. destruct (m (warmup.world st)). cbn. repeat split.
Qed.

(** A receive from a blocked producer yields the value it holds. *)
Lemma recv_first {A} (a : A) (pool : list A) (timeout : Z) (wd : World) :
  fst (fst (warmup.recv E (warmup.sending a pool timeout) wd)) = Some a.
Proof.
  unfold warmup.recv, warmup.produce, rand.Intn. run.
  destruct (time.fired timeout wd); reflexivity.
Qed.

(** *** Counting *)

Lemma wrap_add_l (a b : Z) : Go.wrap (Go.wrap a + b) = Go.wrap (a + b).
Proof.
  unfold Go.wrap. f_equal.
  replace ((a + 2 ^ 63) mod 2 ^ 64 - 2 ^ 63 + b + 2 ^ 63)
    with ((a + 2 ^ 63) mod 2 ^ 64 + b) by lia.
  rewrite Zplus_mod_idemp_l. f_equal. lia.
Qed.

(** [n] increments of an [int]. *)
Lemma incr_iter (n : nat) (c : Z) :
  Go.in_range c ->
  Nat.iter n (fun k => Go.add k 1) c = Go.wrap (c + Z.of_nat n).
Proof.
  intros Hc. induction n as [|n IH].
  - cbn. rewrite Z.add_0_r. symmetry. apply wrap_small. exact Hc.
  - rewrite Nat.iter_succ, IH. unfold Go.add. rewrite wrap_add_l. f_equal. lia.
Qed.

Lemma successes_app (l1 l2 : list warmup.Send) :
  successes (l1 ++ l2) = (successes l1 + successes l2)%nat.
Proof. unfold successes. rewrite filter_app, length_app. reflexivity. Qed.

Lemma counted_iter (resp : Response) (c : Z) (p : warmup.Proto) (t : string) (wd : World) :
  counted resp c = Nat.iter (successes [warmup.mkSend p t wd resp]) (fun k => Go.add k 1) c.
Proof. unfold counted, successes. cbn. destruct (Err resp); reflexivity. Qed.

(** *** The loops *)

(** What a worker that ran to its end has done, for a worker of protocol
    [p] pacing by [delay]: it made the sends [new], each entered right
    after the pacing sleep; the counter went up once per send without an
    error; the WaitGroup was told. *)
Definition worker_done (p : warmup.Proto) (delay : Z) (st st' : warmup.State G)
    (new : list warmup.Send) : Prop :=
  warmup.sends st' = warmup.sends st ++ new /\
  Forall (fun s => warmup.send_proto s = p /\
                   exists wd, warmup.send_entry s = paced delay wd) new /\
  warmup.requestsSentCounter st' =
    Nat.iter (successes new) (fun k => Go.add k 1) (warmup.requestsSentCounter st) /\
  warmup.wg st' = warmup.wg st - 1 /\
  warmup.goroutines st' = warmup.goroutines st /\
  warmup.ctl st' = warmup.ctl st.

Lemma worker_done_step (p : warmup.Proto) (delay : Z) (st st1 st2 st' : warmup.State G)
    (s : warmup.Send) (new : list warmup.Send) :
  warmup.sends st1 = warmup.sends st ->
  warmup.requestsSentCounter st1 = warmup.requestsSentCounter st ->
  warmup.wg st1 = warmup.wg st ->
  warmup.goroutines st1 = warmup.goroutines st ->
  warmup.ctl st1 = warmup.ctl st ->
  warmup.sends st2 = warmup.sends st1 ++ [s] ->
  warmup.send_proto s = p ->
  warmup.send_entry s = paced delay (warmup.world st1) ->
  warmup.requestsSentCounter st2 =
    Nat.iter (successes [s]) (fun k => Go.add k 1) (warmup.requestsSentCounter st1) ->
  warmup.wg st2 = warmup.wg st1 ->
  warmup.goroutines st2 = warmup.goroutines st1 ->
  warmup.ctl st2 = warmup.ctl st1 ->
  worker_done p delay st2 st' new ->
  worker_done p delay st st' (s :: new).
Proof.
  intros Hs1 Hc1 Hw1 Hg1 Hk1 Hs2 Hp He Hc2 Hw2 Hg2 Hk2 (Hs & Hall & Hc & Hw & Hg & Hk).
  unfold worker_done. repeat split.
  - rewrite Hs, Hs2, Hs1, <- app_assoc. reflexivity.
  - constructor; [split; [exact Hp | eexists; exact He] | exact Hall].
  - rewrite Hc, Hc2, Hc1.
    change (s :: new) with ([s] ++ new). rewrite successes_app.
    rewrite Nat.add_comm. rewrite Nat.iter_add. reflexivity.
  - lia.
  - congruence.
  - congruence.
Qed.

Lemma HTTPWarmupWorker_done (fuel : nat) :
  forall (w : warmup.Warmup) (requests : warmup.chan http.Request) (headers : list string)
         (delay : Z) (st st' : warmup.State G),
  warmup.HTTPWarmupWorker E fuel w requests headers delay st = Some st' ->
  exists new, worker_done warmup.HTTP delay st st' new.
Proof.
  induction fuel as [|fuel IH]; intros w requests headers delay st st' Hrun.
  - discriminate Hrun.
  - cbn [warmup.HTTPWarmupWorker] in Hrun.
    pose proof (liftW_frame (warmup.recv E requests) st) as Hrecv.
    destruct (warmup.liftW (warmup.recv E requests) st) as [[r requests'] st1].
    cbn [snd] in Hrecv. destruct Hrecv as (_ & _ & Hc1 & Hs1 & _ & Hw1 & Hg1 & Hk1).
    destruct r as [request|].
    + pose proof (HTTPWarmupWorker_body_spec w request headers delay st1) as Hbody.
      cbv zeta in Hbody.
      destruct (http.SendRequest E _ _ _ _ _ _) as [resp wd2].
      destruct (warmup.HTTPWarmupWorker_body E w request headers delay st1) as [u st2].
      cbn [snd] in Hbody. destruct Hbody as (_ & Hc2 & Hs2 & _ & Hw2 & Hg2 & Hk2).
      destruct (IH _ _ _ _ _ _ Hrun) as [new Hnew].
      eexists. eapply worker_done_step; eauto.
      rewrite Hc2. apply counted_iter.
    + inversion Hrun; subst st'. exists []. unfold worker_done. cbn.
      rewrite app_nil_r. repeat split; auto. lia.
Qed.

Lemma GrpcWarmupWorker_done (fuel : nat) :
  forall (requests : warmup.chan warmup.GrpcRequest) (headers : list string)
         (delay : Z) (st st' : warmup.State G),
  warmup.GrpcWarmupWorker E SendRequest fuel requests headers delay st = Some st' ->
  exists new, worker_done warmup.GRPC delay st st' new.
Proof.
  induction fuel as [|fuel IH]; intros requests headers delay st st' Hrun.
  - discriminate Hrun.
  - cbn [warmup.GrpcWarmupWorker] in Hrun.
    pose proof (liftW_frame (warmup.recv E requests) st) as Hrecv.
    destruct (warmup.liftW (warmup.recv E requests) st) as [[r requests'] st1].
    cbn [snd] in Hrecv. destruct Hrecv as (_ & _ & Hc1 & Hs1 & _ & Hw1 & Hg1 & Hk1).
    destruct r as [request|].
    + pose proof (GrpcWarmupWorker_body_spec request headers delay st1) as Hbody.
      cbv zeta in Hbody.
      destruct (SendRequest _ _ _ _ _ _) as [[resp g] wd2].
      destruct (warmup.GrpcWarmupWorker_body SendRequest request headers delay st1) as [u st2].
      cbn [snd] in Hbody. destruct Hbody as (_ & Hc2 & Hs2 & _ & Hw2 & Hg2 & Hk2).
      destruct (IH _ _ _ _ _ Hrun) as [new Hnew].
      eexists. eapply worker_done_step; eauto.
      rewrite Hc2. apply counted_iter.
    + inversion Hrun; subst st'. exists []. unfold worker_done. cbn.
      rewrite app_nil_r. repeat split; auto. lia.
Qed.

(** X3: an HTTP send that ends in an error is logged as a failure, leaves
    the counter alone, and the worker goes on with what the source hands
    it next. *)
Theorem http_error_is_isolated (fuel : nat) (w : warmup.Warmup) (request : http.Request)
    (pool : list http.Request) (timeout : Z) (headers : list string) (delay : Z)
    (st : warmup.State G) :
  let '((_, rest), st1) :=
    warmup.liftW (warmup.recv E (warmup.sending request pool timeout)) st in
  let '(resp, wd2) :=
    http.SendRequest E (warmup.httpClient (warmup.Target_ w)) (http.Method request)
                     (http.Path request) headers (http.Body request)
                     (paced delay (warmup.world st1)) in
  forall err, Err resp = Some err ->
  exists st2,
    warmup.requestsSentCounter st2 = warmup.requestsSentCounter st /\
    warmup.world st2 = record (EvLog (LogRequestError (http.Path request) err)) wd2 /\
    warmup.HTTPWarmupWorker E (S fuel) w (warmup.sending request pool timeout) headers delay st
    = warmup.HTTPWarmupWorker E fuel w rest headers delay st2.
Proof.
  cbn [warmup.HTTPWarmupWorker].
  pose proof (liftW_frame (warmup.recv E (warmup.sending request pool timeout)) st)
    as (Hr & _ & Hc1 & _).
  pose proof (recv_first request pool timeout (warmup.world st)) as Hfirst.
  destruct (warmup.liftW (warmup.recv E (warmup.sending request pool timeout)) st)
    as [[r rest] st1].
  cbn [fst snd] in Hr, Hc1. apply (f_equal fst) in Hr. cbn [fst] in Hr.
  rewrite Hfirst in Hr. subst r.
  pose proof (HTTPWarmupWorker_body_spec w request headers delay st1) as Hbody.
  cbv zeta in Hbody.
  destruct (http.SendRequest E _ _ _ _ _ _) as [resp wd2].
  destruct (warmup.HTTPWarmupWorker_body E w request headers delay st1) as [u st2].
  cbn [snd] in Hbody. destruct Hbody as (Hw & Hc2 & _).
  intros err Herr. exists st2. unfold counted, http_log in *. rewrite Herr in *.
  repeat split; congruence.
Qed.

(** X4: a gRPC send that ends in an error is logged as a failure, leaves
    the counter alone, and the worker goes on with what the source hands
    it next. *)
Theorem grpc_error_is_isolated (fuel : nat) (request : warmup.GrpcRequest)
    (pool : list warmup.GrpcRequest) (timeout : Z) (headers : list string) (delay : Z)
    (st : warmup.State G) :
  let '((_, rest), st1) :=
    warmup.liftW (warmup.recv E (warmup.sending request pool timeout)) st in
  let '((resp, _), wd2) :=
    SendRequest (warmup.grpcClient st1) (warmup.ServiceMethod request)
                (warmup.Message request) headers false (paced delay (warmup.world st1)) in
  forall err, Err resp = Some err ->
  exists st2,
    warmup.requestsSentCounter st2 = warmup.requestsSentCounter st /\
    warmup.world st2 =
      record (EvLog (LogRequestError (warmup.ServiceMethod request) err)) wd2 /\
    warmup.GrpcWarmupWorker E SendRequest (S fuel) (warmup.sending request pool timeout)
                            headers delay st
    = warmup.GrpcWarmupWorker E SendRequest fuel rest headers delay st2.
Proof.
  cbn [warmup.GrpcWarmupWorker].
  pose proof (liftW_frame (warmup.recv E (warmup.sending request pool timeout)) st)
    as (Hr & _ & Hc1 & _).
  pose proof (recv_first request pool timeout (warmup.world st)) as Hfirst.
  destruct (warmup.liftW (warmup.recv E (warmup.sending request pool timeout)) st)
    as [[r rest] st1].
  cbn [fst snd] in Hr, Hc1. apply (f_equal fst) in Hr. cbn [fst] in Hr.
  rewrite Hfirst in Hr. subst r.
  pose proof (GrpcWarmupWorker_body_spec request headers delay st1) as Hbody.
  cbv zeta in Hbody.
  destruct (SendRequest _ _ _ _ _ _) as [[resp g] wd2].
  destruct (warmup.GrpcWarmupWorker_body SendRequest request headers delay st1) as [u st2].
  cbn [snd] in Hbody. destruct Hbody as (Hw & Hc2 & _).
  intros err Herr. exists st2. unfold counted, grpc_log in *. rewrite Herr in *.
  repeat split; congruence.
Qed.

(** C9: in every round of a worker, HTTP or gRPC, the configured pacing
    delay is slept before the transport client is called: the world in
    which each call is entered, the first one included, is the one a
    [time.Sleep] of the delay has just returned in. *)
Theorem pacing_sleep_before_every_send (fuel : nat) (w : warmup.Warmup)
    (httpRequests : warmup.chan http.Request) (grpcRequests : warmup.chan warmup.GrpcRequest)
    (headers : list string) (delay : Z) (st st' : warmup.State G) :
  warmup.HTTPWarmupWorker E fuel w httpRequests headers delay st = Some st' \/
  warmup.GrpcWarmupWorker E SendRequest fuel grpcRequests headers delay st = Some st' ->
  exists new,
    warmup.sends st' = warmup.sends st ++ new /\
    Forall (fun s =>
              exists wd,
                warmup.send_entry s =
                  snd (time.Sleep (Go.mul delay time.Millisecond) wd) /\
                trace (warmup.send_entry s) =
                  trace wd ++ [EvSleep (Go.mul delay time.Millisecond)]) new.
Proof.
  intros Hrun.
  assert (Hdone : exists p new, worker_done p delay st st' new).
  { destruct Hrun as [Hrun | Hrun].
    - destruct (HTTPWarmupWorker_done _ _ _ _ _ _ _ Hrun) as [new H]. eauto.
    - destruct (GrpcWarmupWorker_done _ _ _ _ _ _ Hrun) as [new H]. eauto. }
  destruct Hdone as (p & new & Hs & Hall & _).
  exists new. split; [exact Hs|].
  eapply Forall_impl; [| exact Hall].
  intros s (_ & wd & Hentry). exists wd. rewrite Hentry.
  split; [reflexivity|].
  unfold paced, pacing, time.Sleep. cbn.
  destruct (0 <? Go.mul delay time.Millisecond); reflexivity.
Qed.

(** C8: a request source over an empty pool, HTTP or gRPC, is empty at
    once: its channel is closed without the clock moving and without a
    timer being set, a receive yields nothing, and a worker bound to it
    returns after that one receive, having sent nothing. *)
Theorem empty_pool_source_is_empty (target : warmup.Target) (concurrency : Z)
    (httpRequests : list http.Request) (headers : list string)
    (grpcRequests : list warmup.GrpcRequest) (delay window maxDurationSeconds : Z)
    (wd : World) (fuel : nat) (st : warmup.State G) :
  let w_no_http := warmup.mkWarmup target concurrency [] headers grpcRequests delay window in
  let w_no_grpc := warmup.mkWarmup target concurrency httpRequests headers [] delay window in
  warmup.GetWarmupHTTPRequests E w_no_http maxDurationSeconds wd = (warmup.closed, wd) /\
  warmup.GetWarmupGrpcRequests E w_no_grpc maxDurationSeconds wd = (warmup.closed, wd) /\
  warmup.recv E (@warmup.closed http.Request) wd = ((None, warmup.closed), wd) /\
  warmup.recv E (@warmup.closed warmup.GrpcRequest) wd = ((None, warmup.closed), wd) /\
  (exists st',
     warmup.goroutine E SendRequest (S fuel) w_no_http maxDurationSeconds warmup.HTTP st
       = Some st' /\
     warmup.world st' = warmup.world st /\ warmup.sends st' = warmup.sends st /\
     warmup.requestsSentCounter st' = warmup.requestsSentCounter st) /\
  (exists st',
     warmup.goroutine E SendRequest (S fuel) w_no_grpc maxDurationSeconds warmup.GRPC st
       = Some st' /\
     warmup.world st' = warmup.world st /\ warmup.sends st' = warmup.sends st /\
     warmup.requestsSentCounter st' = warmup.requestsSentCounter st).
Proof.
  cbv zeta. repeat split; try reflexivity; eexists; (split; [reflexivity|]); cbn; auto.
Qed.

End Workers.

(* ================================================================== *)
(** ** The launcher: ramp-up, the gRPC phase, the division *)

Section Launcher.
Variable E : Env.
Variable G : Type.
Variable Connect : G -> list string -> M World (option error * G).
Variable SendRequest : G -> string -> string -> list string -> bool -> M World (Response * G).

(** The indices [from, from + 1, ...] of [n] rounds. *)
Fixpoint rounds (from : Z) (n : nat) : list Z :=
  match n with
  | O => []
  | S n' => from :: rounds (from + 1) n'
  end.

(** What the launcher does to the outside in round [i] of a phase whose
    spawn line is [line]: the pause, if any, then the line. *)
Definition round_trace (line : LogMsg) (rampUpInterval i : Z) : list Event :=
  (if (1 <? i) && (0 <? rampUpInterval)
   then [EvSleep (Go.mul rampUpInterval time.Second)]
   else []) ++ [EvLog line].

Definition ramp_trace (line : LogMsg) (rampUpInterval : Z) (idx : list Z) : list Event :=
  flat_map (round_trace line rampUpInterval) idx.

(** The time the launcher pauses before round [i]. *)
Definition round_pause (rampUpInterval i : Z) : Z :=
  if (1 <? i) && (0 <? rampUpInterval)
  then Z.max 0 (Go.mul rampUpInterval time.Second)
  else 0.

Definition ramp_pause (rampUpInterval : Z) (idx : list Z) : Z :=
  fold_right (fun i acc => round_pause rampUpInterval i + acc) 0 idx.

Lemma waitForRampUp_spec (rampUpInterval i : Z) (wd : World) :
  let wd' := snd (warmup.waitForRampUp rampUpInterval i wd) in
  now wd' = now wd + round_pause rampUpInterval i /\
  trace (record (EvLog LogSpawnHTTP) wd') =
    trace wd ++ round_trace LogSpawnHTTP rampUpInterval i /\
  trace (record (EvLog LogSpawnGrpc) wd') =
    trace wd ++ round_trace LogSpawnGrpc rampUpInterval i.
Proof.
  unfold warmup.waitForRampUp, round_pause, round_trace, time.Sleep.
  destruct ((1 <? i) && (0 <? rampUpInterval)); cbn.
  - destruct (0 <? Go.mul rampUpInterval time.Second) eqn:Hpos; cbn;
      rewrite <- ?app_assoc; repeat split; try reflexivity.
    + apply Z.ltb_lt in Hpos. lia.
    + apply Z.ltb_ge in Hpos. lia.
  - repeat split. lia.
Qed.

(** One phase of spawning: [n] rounds from index [from]. *)
Lemma spawn_rounds (p : warmup.Proto) (line : LogMsg) (rampUpInterval : Z) (n : nat) :
  (line = LogSpawnHTTP \/ line = LogSpawnGrpc) ->
  forall (from : Z) (st : warmup.State G),
  let st' := snd (for_loop n from (fun i =>
                    warmup.liftW (warmup.waitForRampUp rampUpInterval i) ;;
                    warmup.liftW (log_Print line) ;;
                    warmup.wg_Add 1 ;;
                    warmup.go p i) st) in
  now (warmup.world st') =
    now (warmup.world st) + ramp_pause rampUpInterval (rounds from n) /\
  trace (warmup.world st') =
    trace (warmup.world st) ++ ramp_trace line rampUpInterval (rounds from n) /\
  warmup.goroutines st' = warmup.goroutines st ++ repeat p n /\
  warmup.ctl st' = warmup.ctl st ++ map (warmup.CtlSpawn p) (rounds from n) /\
  warmup.wg st' = warmup.wg st + Z.of_nat n /\
  warmup.requestsSentCounter st' = warmup.requestsSentCounter st /\
  warmup.sends st' = warmup.sends st /\
  warmup.grpcClient st' = warmup.grpcClient st.
Proof.
  intros Hline. induction n as [|n IH]; intros from st.
  - cbn. rewrite !app_nil_r. repeat split; lia.
  - cbn [for_loop rounds]. rewrite bind_apply.
    set (st1 := snd (_ st)).
    specialize (IH (from + 1) st1). cbv zeta in IH.
    destruct IH as (Hnow & Htr & Hgo & Hctl & Hwg & Hc & Hs & Hg).
    pose proof (waitForRampUp_spec rampUpInterval from (warmup.world st)) as Hw.
    cbv zeta in Hw. destruct Hw as (Hw1 & Hw2 & Hw3).
    assert (H1 : now (warmup.world st1) =
                 now (warmup.world st) + round_pause rampUpInterval from /\
                 trace (warmup.world st1) =
                 trace (warmup.world st) ++ round_trace line rampUpInterval from /\
                 warmup.goroutines st1 = warmup.goroutines st ++ [p] /\
                 warmup.ctl st1 = warmup.ctl st ++ [warmup.CtlSpawn p from] /\
                 warmup.wg st1 = warmup.wg st + 1 /\
                 warmup.requestsSentCounter st1 = warmup.requestsSentCounter st /\
                 warmup.sends st1 = warmup.sends st /\
                 warmup.grpcClient st1 = warmup.grpcClient st).
    { subst st1. unfold warmup.liftW, warmup.wg_Add, warmup.go. run.
      destruct (warmup.waitForRampUp rampUpInterval from (warmup.world st)) as [u wd1].
      cbn in *. repeat split; try assumption.
      destruct Hline; subst line; assumption. }
    destruct H1 as (Hnow1 & Htr1 & Hgo1 & Hctl1 & Hwg1 & Hc1 & Hs1 & Hg1).
    cbn [ramp_pause ramp_trace flat_map fold_right map repeat].
    fold (ramp_trace line rampUpInterval (rounds (from + 1) n)).
    fold (ramp_pause rampUpInterval (rounds (from + 1) n)).
    rewrite Hnow, Htr, Hgo, Hctl, Hwg, Hc, Hs, Hg, Hnow1, Htr1, Hgo1, Hctl1.
    rewrite <- !app_assoc. cbn [app].
    repeat split; try assumption; lia.
Qed.

Lemma spawnHTTP_spec (w : warmup.Warmup) (rampUpInterval : Z) (st : warmup.State G) :
  let idx := rounds 1 (Z.to_nat (warmup.Concurrency w)) in
  let st' := snd (warmup.spawnHTTP w rampUpInterval st) in
  now (warmup.world st') = now (warmup.world st) + ramp_pause rampUpInterval idx /\
  trace (warmup.world st') =
    trace (warmup.world st) ++ ramp_trace LogSpawnHTTP rampUpInterval idx /\
  warmup.goroutines st' =
    warmup.goroutines st ++ repeat warmup.HTTP (Z.to_nat (warmup.Concurrency w)) /\
  warmup.ctl st' = warmup.ctl st ++ map (warmup.CtlSpawn warmup.HTTP) idx /\
  warmup.wg st' = warmup.wg st + Z.of_nat (Z.to_nat (warmup.Concurrency w)) /\
  warmup.requestsSentCounter st' = warmup.requestsSentCounter st /\
  warmup.sends st' = warmup.sends st /\
  warmup.grpcClient st' = warmup.grpcClient st.
Proof.
  apply (spawn_rounds warmup.HTTP LogSpawnHTTP rampUpInterval
           (Z.to_nat (warmup.Concurrency w)) (or_introl eq_refl) 1 st).
Qed.

Lemma spawnGrpc_spec (w : warmup.Warmup) (rampUpInterval : Z) (st : warmup.State G) :
  let idx := rounds 1 (Z.to_nat (warmup.Concurrency w)) in
  let st' := snd (warmup.spawnGrpc w rampUpInterval st) in
  now (warmup.world st') = now (warmup.world st) + ramp_pause rampUpInterval idx /\
  trace (warmup.world st') =
    trace (warmup.world st) ++ ramp_trace LogSpawnGrpc rampUpInterval idx /\
  warmup.goroutines st' =
    warmup.goroutines st ++ repeat warmup.GRPC (Z.to_nat (warmup.Concurrency w)) /\
  warmup.ctl st' = warmup.ctl st ++ map (warmup.CtlSpawn warmup.GRPC) idx /\
  warmup.wg st' = warmup.wg st + Z.of_nat (Z.to_nat (warmup.Concurrency w)) /\
  warmup.requestsSentCounter st' = warmup.requestsSentCounter st /\
  warmup.sends st' = warmup.sends st /\
  warmup.grpcClient st' = warmup.grpcClient st.
Proof.
  apply (spawn_rounds warmup.GRPC LogSpawnGrpc rampUpInterval
           (Z.to_nat (warmup.Concurrency w)) (or_intror eq_refl) 1 st).
Qed.

(** The state in which the phases start: the generator seeded with the
    clock, a fresh WaitGroup. *)
Definition started (st : warmup.State G) : warmup.State G :=
  snd (warmup.wg_new (snd (warmup.liftW (t <- time.Now ;; rand.Seed t) st))).

(** The state after the HTTP phase. *)
Definition after_http (w : warmup.Warmup) (hasHttpRequests : bool) (rampUpInterval : Z)
    (st : warmup.State G) : warmup.State G :=
  snd ((if hasHttpRequests then warmup.spawnHTTP w rampUpInterval else ret tt) (started st)).

Lemma launch_unfold (w : warmup.Warmup) (hasHttpRequests hasGrpcRequests : bool)
    (st : warmup.State G) (rampUpInterval : Z) :
  Go.div (warmup.ConcurrencyTargetSeconds w) (warmup.Concurrency w) = Some rampUpInterval ->
  warmup.launch Connect w hasHttpRequests hasGrpcRequests st =
  Returned (snd ((if hasGrpcRequests then warmup.grpcPhase Connect w rampUpInterval else ret tt)
                   (after_http w hasHttpRequests rampUpInterval st))).
Proof.
  intros Hdiv. unfold warmup.launch, after_http, started.
  destruct (warmup.liftW _ st) as [u st1]. cbn [snd].
  destruct (warmup.wg_new st1) as [u1 st2]. cbn [snd].
  rewrite Hdiv.
  destruct hasHttpRequests, hasGrpcRequests; unfold ret;
    repeat match goal with
    | |- context [let (_, _) := ?x in _] => destruct x as [? ?] eqn:?
    end; cbn [snd];
    repeat match goal with
    | H : ?x = (_, _) |- context [?x] => rewrite H
    end; reflexivity.
Qed.

Lemma quot_in_range (s c : Z) : 0 < c -> Go.in_range s -> Go.in_range (Z.quot s c).
Proof.
  unfold Go.in_range, Go.min_int, Go.max_int. intros Hc Hs.
  destruct (Z_le_gt_dec 0 s) as [Hpos | Hneg].
  - rewrite Z.quot_div_nonneg by lia.
    pose proof (Z.div_pos s c ltac:(lia) ltac:(lia)).
    assert (s / c <= s) by (apply Z.div_le_upper_bound; nia). lia.
  - replace s with (- (- s)) by lia. rewrite Z.quot_opp_l by lia.
    rewrite Z.quot_div_nonneg by lia.
    pose proof (Z.div_pos (- s) c ltac:(lia) ltac:(lia)).
    assert (- s / c <= - s) by (apply Z.div_le_upper_bound; nia). lia.
Qed.


(** X6: a negative concurrency is not refused: the division goes through
    and the spawn loops run no round. *)
Theorem negative_concurrency_spawns_nothing (w : warmup.Warmup) (hasHttpRequests : bool)
    (st : warmup.State G) :
  warmup.Concurrency w < 0 ->
  exists st',
    warmup.launch Connect w hasHttpRequests false st = Returned st' /\
    warmup.goroutines st' = [] /\ warmup.ctl st' = warmup.ctl st.
Proof.
  intros HC.
  assert (Hdiv : exists interval,
    Go.div (warmup.ConcurrencyTargetSeconds w) (warmup.Concurrency w) = Some interval).
  { unfold Go.div. destruct (Z.eqb_spec (warmup.Concurrency w) 0); [lia|].
    eexists; reflexivity. }
  destruct Hdiv as [interval Hdiv].
  rewrite (launch_unfold w hasHttpRequests false st interval Hdiv).
  eexists. split; [reflexivity|]. unfold after_http.
  unfold ret. cbn [snd].
  destruct hasHttpRequests.
  - pose proof (spawnHTTP_spec w interval (started st)) as (_ & _ & Hgo & Hctl & _).
    rewrite Hgo, Hctl.
    replace (Z.to_nat (warmup.Concurrency w)) with O by lia. cbn.
    rewrite app_nil_r. split; reflexivity.
  - cbn. split; reflexivity.
Qed.

(** C6: for a target concurrency C > 0 and a ramp window S, the per-step
    delay is S / C by integer division.  The first worker starts with no
    pause; before each later worker the launcher sleeps that interval,
    converted to seconds, which advances the clock by exactly the interval
    (and it does not pause at all when the interval is 0).  The HTTP phase
    and the gRPC phase follow the same schedule. *)
Theorem ramp_up_schedule (w : warmup.Warmup) (st : warmup.State G) :
  0 < warmup.Concurrency w ->
  Go.in_range (warmup.ConcurrencyTargetSeconds w) ->
  let interval := Z.quot (warmup.ConcurrencyTargetSeconds w) (warmup.Concurrency w) in
  let workers := rounds 1 (Z.to_nat (warmup.Concurrency w)) in
  Go.div (warmup.ConcurrencyTargetSeconds w) (warmup.Concurrency w) = Some interval /\
  (forall wd, warmup.waitForRampUp interval 1 wd = (tt, wd)) /\
  (forall i wd, 1 < i -> 0 < interval ->
     warmup.waitForRampUp interval i wd = time.Sleep (Go.mul interval time.Second) wd) /\
  (forall i wd, 1 < i -> 0 <= interval -> interval * time.Second <= Go.max_int ->
     now (snd (warmup.waitForRampUp interval i wd)) = now wd + interval * time.Second) /\
  (forall i wd, interval = 0 -> warmup.waitForRampUp interval i wd = (tt, wd)) /\
  (let http := warmup.world (snd (warmup.spawnHTTP w interval st)) in
   let rpc := warmup.world (snd (warmup.spawnGrpc w interval st)) in
   trace http = trace (warmup.world st) ++ ramp_trace LogSpawnHTTP interval workers /\
   trace rpc = trace (warmup.world st) ++ ramp_trace LogSpawnGrpc interval workers /\
   now http = now (warmup.world st) + ramp_pause interval workers /\
   now rpc = now (warmup.world st) + ramp_pause interval workers).
Proof.
  intros HC HS interval workers.
  split; [| split; [| split; [| split; [| split]]]].
  - unfold Go.div. destruct (Z.eqb_spec (warmup.Concurrency w) 0) as [H0 | _]; [lia|].
    rewrite wrap_small by (apply quot_in_range; assumption). reflexivity.
  - intros wd. reflexivity.
  - intros i wd Hi Hiv. unfold warmup.waitForRampUp.
    destruct (Z.ltb_spec 1 i); [| lia]. destruct (Z.ltb_spec 0 interval); [| lia].
    reflexivity.
  - intros i wd Hi Hiv Hmax.
    pose proof (waitForRampUp_spec interval i wd) as (Hnow & _). rewrite Hnow.
    unfold round_pause.
    destruct (Z.ltb_spec 1 i); [| lia]. destruct (Z.ltb_spec 0 interval); cbn.
    + unfold Go.mul. rewrite wrap_small.
      * unfold time.Second in *. lia.
      * unfold Go.in_range, Go.min_int, time.Second in *. lia.
    + assert (interval = 0) as -> by lia. lia.
  - intros i wd Hiv. unfold warmup.waitForRampUp. rewrite Hiv.
    rewrite andb_false_r. reflexivity.
  - cbv zeta.
    pose proof (spawnHTTP_spec w interval st) as (Hn1 & Ht1 & _).
    pose proof (spawnGrpc_spec w interval st) as (Hn2 & Ht2 & _).
    auto.
Qed.

(** The gRPC phase, from any state. *)
Lemma grpcPhase_spec (w : warmup.Warmup) (interval : Z) (s : warmup.State G) :
  let '((connErr, g), wd) :=
    Connect (warmup.grpcClient s) (warmup.HttpHeaders w)
            (record (EvLog LogGrpcConnecting) (warmup.world s)) in
  let s' := snd (warmup.grpcPhase Connect w interval s) in
  warmup.requestsSentCounter s' = warmup.requestsSentCounter s /\
  warmup.sends s' = warmup.sends s /\
  match connErr with
  | Some err =>
      warmup.ctl s' = warmup.ctl s ++ [warmup.CtlConnect (Some err)] /\
      warmup.world s' = record (EvLog (LogGrpcConnectError err)) wd /\
      warmup.goroutines s' = warmup.goroutines s
  | None =>
      warmup.ctl s' =
        warmup.ctl s ++ warmup.CtlConnect None ::
        map (warmup.CtlSpawn warmup.GRPC) (rounds 1 (Z.to_nat (warmup.Concurrency w))) /\
      trace (warmup.world s') =
        trace wd ++ ramp_trace LogSpawnGrpc interval
                      (rounds 1 (Z.to_nat (warmup.Concurrency w))) /\
      warmup.goroutines s' =
        warmup.goroutines s ++ repeat warmup.GRPC (Z.to_nat (warmup.Concurrency w))
  end.
Proof.
  unfold warmup.grpcPhase, warmup.liftW, warmup.liftG, warmup.note_ctl. run.
  cbn [warmup.world warmup.grpcClient].
  destruct (Connect (warmup.grpcClient s) (warmup.HttpHeaders w)
              (record (EvLog LogGrpcConnecting) (warmup.world s)))
    as [[connErr g] wd].
  cbn [warmup.world warmup.grpcClient warmup.requestsSentCounter warmup.wg
       warmup.goroutines warmup.sends warmup.ctl].
  destruct connErr as [err|].
  - cbn. repeat split.
  - match goal with |- context [warmup.spawnGrpc w interval ?s0] =>
      pose proof (spawnGrpc_spec w interval s0) as (_ & Htr & Hgo & Hctl & _ & Hc & Hs & _);
      destruct (warmup.spawnGrpc w interval s0) as [u st2]
    end.
    cbn in Htr, Hgo, Hctl, Hc, Hs.
    rewrite Hc, Hs, Hctl, Htr, Hgo. rewrite <- app_assoc. cbn. repeat split.
Qed.

(** C5: when the gRPC phase is configured (and the concurrency is not
    zero), the launcher calls [Connect] exactly once, after the HTTP phase
    and before any gRPC worker is spawned.  If the connect fails, the
    failure is logged, no gRPC worker is spawned, and the goroutines of
    the run are exactly the HTTP workers that a run without gRPC requests
    spawns; the counter and the sends are not touched. *)
Theorem grpc_phase_connects_once (w : warmup.Warmup) (hasHttpRequests : bool)
    (st : warmup.State G) :
  warmup.Concurrency w <> 0 ->
  exists interval st_http st',
    warmup.launch Connect w hasHttpRequests false st = Returned st_http /\
    warmup.launch Connect w hasHttpRequests true st = Returned st' /\
    warmup.ctl st_http =
      warmup.ctl st ++
      (if hasHttpRequests
       then map (warmup.CtlSpawn warmup.HTTP) (rounds 1 (Z.to_nat (warmup.Concurrency w)))
       else []) /\
    let '((connErr, g), wd) :=
      Connect (warmup.grpcClient st_http) (warmup.HttpHeaders w)
              (record (EvLog LogGrpcConnecting) (warmup.world st_http)) in
    warmup.requestsSentCounter st' = warmup.requestsSentCounter st_http /\
    warmup.sends st' = warmup.sends st_http /\
    match connErr with
    | Some err =>
        warmup.ctl st' = warmup.ctl st_http ++ [warmup.CtlConnect (Some err)] /\
        warmup.world st' = record (EvLog (LogGrpcConnectError err)) wd /\
        warmup.goroutines st' = warmup.goroutines st_http
    | None =>
        warmup.ctl st' =
          warmup.ctl st_http ++ warmup.CtlConnect None ::
          map (warmup.CtlSpawn warmup.GRPC) (rounds 1 (Z.to_nat (warmup.Concurrency w))) /\
        trace (warmup.world st') =
          trace wd ++ ramp_trace LogSpawnGrpc interval
                        (rounds 1 (Z.to_nat (warmup.Concurrency w))) /\
        warmup.goroutines st' =
          warmup.goroutines st_http ++
          repeat warmup.GRPC (Z.to_nat (warmup.Concurrency w))
    end.
Proof.
  intros HC.
  assert (Hdiv : exists interval,
    Go.div (warmup.ConcurrencyTargetSeconds w) (warmup.Concurrency w) = Some interval).
  { unfold Go.div. destruct (Z.eqb_spec (warmup.Concurrency w) 0); [contradiction|].
    eexists; reflexivity. }
  destruct Hdiv as [interval Hdiv].
  exists interval, (after_http w hasHttpRequests interval st).
  eexists. split; [| split; [| split]].
  - rewrite (launch_unfold w hasHttpRequests false st interval Hdiv). reflexivity.
  - rewrite (launch_unfold w hasHttpRequests true st interval Hdiv). reflexivity.
  - unfold after_http. destruct hasHttpRequests.
    + pose proof (spawnHTTP_spec w interval (started st)) as (_ & _ & _ & Hctl & _).
      rewrite Hctl. reflexivity.
    + cbn. rewrite app_nil_r. reflexivity.
  - apply grpcPhase_spec.
Qed.

(** C2 (the code departs from it): [Run] divides by the concurrency
    without any check.  With concurrency 0 it panics, whatever else is
    configured. *)
Theorem Run_zero_concurrency_panics (fuel : nat) (target : warmup.Target)
    (httpRequests : list http.Request) (headers : list string)
    (grpcRequests : list warmup.GrpcRequest) (delay window : Z)
    (hasHttpRequests hasGrpcRequests : bool) (maxDurationSeconds : Z) (st : warmup.State G) :
  warmup.Run E Connect SendRequest fuel
    (warmup.mkWarmup target 0 httpRequests headers grpcRequests delay window)
    hasHttpRequests hasGrpcRequests maxDurationSeconds st
  = Panicked Go.divide_error.
Proof. reflexivity. Qed.

(** What [wg.Wait()] returns to, when a single goroutine was started. *)
Lemma goroutine_done (fuel : nat) (w : warmup.Warmup) (maxDurationSeconds : Z)
    (p : warmup.Proto) (st st' : warmup.State G) :
  warmup.goroutine E SendRequest fuel w maxDurationSeconds p st = Some st' ->
  exists new,
    worker_done G p (warmup.RequestDelayMilliseconds w) st st' new.
Proof.
  unfold warmup.goroutine. destruct p.
  - pose proof (liftW_frame G (warmup.GetWarmupHTTPRequests E w maxDurationSeconds) st) as Hf.
    destruct (warmup.liftW _ st) as [requests st1]. cbn [snd] in Hf.
    destruct Hf as (_ & _ & Hc & Hs & _ & Hw & Hg & Hk).
    intros Hrun. destruct (HTTPWarmupWorker_done E G _ _ _ _ _ _ _ Hrun) as [new Hnew].
    exists new. unfold worker_done in *. rewrite <- Hc, <- Hs, <- Hw, <- Hg, <- Hk. exact Hnew.
  - pose proof (liftW_frame G (warmup.GetWarmupGrpcRequests E w maxDurationSeconds) st) as Hf.
    destruct (warmup.liftW _ st) as [requests st1]. cbn [snd] in Hf.
    destruct Hf as (_ & _ & Hc & Hs & _ & Hw & Hg & Hk).
    intros Hrun.
    destruct (GrpcWarmupWorker_done E G SendRequest _ _ _ _ _ _ Hrun) as [new Hnew].
    exists new. unfold worker_done in *. rewrite <- Hc, <- Hs, <- Hw, <- Hg, <- Hk. exact Hnew.
Qed.

(** With concurrency 1 and one protocol configured, the launcher leaves
    at most one goroutine, and has touched neither counter nor sends. *)
Lemma launch_single (w : warmup.Warmup) (hasHttpRequests hasGrpcRequests : bool)
    (st : warmup.State G) :
  warmup.Concurrency w = 1 ->
  xorb hasHttpRequests hasGrpcRequests = true ->
  exists st1,
    warmup.launch Connect w hasHttpRequests hasGrpcRequests st = Returned st1 /\
    warmup.requestsSentCounter st1 = warmup.requestsSentCounter st /\
    warmup.sends st1 = warmup.sends st /\
    (warmup.goroutines st1 = [] \/ exists p, warmup.goroutines st1 = [p]).
Proof.
  intros HC Hx.
  assert (Hdiv : exists interval,
    Go.div (warmup.ConcurrencyTargetSeconds w) (warmup.Concurrency w) = Some interval).
  { unfold Go.div. rewrite HC. cbn. eexists; reflexivity. }
  destruct Hdiv as [interval Hdiv].
  rewrite (launch_unfold w _ _ st interval Hdiv). eexists. split; [reflexivity|].
  unfold after_http.
  destruct hasHttpRequests, hasGrpcRequests; try discriminate Hx.
  - pose proof (spawnHTTP_spec w interval (started st))
      as (_ & _ & Hgo & _ & _ & Hc & Hs & _).
    cbn [ret snd]. unfold ret. cbn [snd]. rewrite Hc, Hs, Hgo, HC. cbn.
    repeat split. right. eexists; reflexivity.
  - change (snd (ret tt (started st))) with (started st).
    pose proof (grpcPhase_spec w interval (started st)) as Hp.
    destruct (Connect _ _ _) as [[connErr g] wd].
    cbv zeta in Hp. destruct Hp as (Hc & Hs & Hrest).
    rewrite Hc, Hs. repeat split.
    destruct connErr as [err|].
    + destruct Hrest as (_ & _ & Hgo). rewrite Hgo. left. reflexivity.
    + destruct Hrest as (_ & _ & Hgo). rewrite Hgo, HC. right. eexists; reflexivity.
Qed.

(** C7: with concurrency 1 and one protocol configured (a single worker),
    starting from a counter at 0, the counter after the run is the number
    of sends whose outcome had no error: exactly that number as long as it
    fits an int.  An outcome moves the counter by its error alone; the
    status code only chooses the log line. *)
Theorem single_worker_counter (fuel : nat) (w : warmup.Warmup)
    (hasHttpRequests hasGrpcRequests : bool) (maxDurationSeconds : Z)
    (st st' : warmup.State G) :
  warmup.Concurrency w = 1 ->
  xorb hasHttpRequests hasGrpcRequests = true ->
  warmup.requestsSentCounter st = 0 ->
  warmup.Run E Connect SendRequest fuel w hasHttpRequests hasGrpcRequests
             maxDurationSeconds st = Returned st' ->
  exists new,
    warmup.sends st' = warmup.sends st ++ new /\
    warmup.requestsSentCounter st' = Go.wrap (Z.of_nat (successes new)) /\
    (Z.of_nat (successes new) <= Go.max_int ->
     warmup.requestsSentCounter st' = Z.of_nat (successes new)) /\
    (forall request r1 r2 (s : warmup.State G),
       Err r1 = Err r2 ->
       warmup.requestsSentCounter (snd (warmup.http_outcome request r1 s)) =
       warmup.requestsSentCounter (snd (warmup.http_outcome request r2 s))).
Proof.
  intros HC Hx H0 Hrun.
  assert (Hmain : exists new,
    warmup.sends st' = warmup.sends st ++ new /\
    warmup.requestsSentCounter st' = Go.wrap (Z.of_nat (successes new))).
  { unfold warmup.Run in Hrun.
    destruct (launch_single w hasHttpRequests hasGrpcRequests st HC Hx)
      as (st1 & Hl & Hc1 & Hs1 & Hgo).
    rewrite Hl in Hrun. unfold warmup.wg_Wait in Hrun.
    destruct Hgo as [Hgo | [p Hgo]]; rewrite Hgo in Hrun.
    - inversion Hrun; subst st'. exists []. rewrite app_nil_r, Hc1, H0. split; auto.
    - destruct (warmup.goroutine E SendRequest fuel w maxDurationSeconds p st1)
        as [st2|] eqn:Hg; [| discriminate Hrun].
      inversion Hrun; subst st2.
      destruct (goroutine_done _ _ _ _ _ _ Hg) as (new & Hs & _ & Hc & _).
      exists new. rewrite Hs, Hs1, Hc, Hc1, H0. split; [reflexivity|].
      rewrite incr_iter; [reflexivity|].
      unfold Go.in_range, Go.min_int, Go.max_int. lia. }
  destruct Hmain as (new & Hs & Hc). exists new.
  split; [exact Hs|]. split; [exact Hc|]. split.
  - intros Hfit. rewrite Hc. apply wrap_small.
    unfold Go.in_range, Go.min_int in *. lia.
  - intros request r1 r2 s Herr. unfold warmup.http_outcome.
    rewrite <- Herr. destruct (Err r1); [reflexivity|].
    run. unfold warmup.incr_requestsSentCounter, warmup.liftW. run.
    destruct (Z.quot (StatusCode r1) 100 =? 2), (Z.quot (StatusCode r2) 100 =? 2);
      reflexivity.
Qed.

End Launcher.

(* ================================================================== *)
(** ** Enough fuel: the workers return *)

Section Termination.
Variable E : Env.
Variable G : Type.
Variable Connect : G -> list string -> M World (option error * G).
Variable SendRequest : G -> string -> string -> list string -> bool -> M World (Response * G).

(** The gRPC transport does not turn the clock back. *)
Hypothesis SendRequest_clock :
  forall g serviceMethod message headers b wd,
    now wd <= now (snd (SendRequest g serviceMethod message headers b wd)).

(** Nor does the HTTP client: what its calls take is added to the clock. *)
Lemma http_SendRequest_clock (c : http.Client) (method path : string)
    (headers : list string) (requestBody : option string) (wd : World) :
  now wd <= now (snd (http.SendRequest E c method path headers requestBody wd)).
Proof.
  unfold http.SendRequest.
  destruct (http_NewRequest E method _ requestBody) as [req | err]; run.
  - unfold http.Do, http.Copy_Discard.
    destruct (httpClient_Do E wd _) as [dt [resp | err]]; cbn.
    + destruct (io_Copy_Discard E _ resp) as [dt' [err|]]; cbn; lia.
    + lia.
  - cbn. lia.
Qed.

(** The receives a source still owes: one when it is about to close or
    hand over its last value, and at most one per nanosecond left. *)
Definition remaining {A} (ch : warmup.chan A) (wd : World) : nat :=
  match ch with
  | warmup.closed => O
  | warmup.sending _ _ timeout => S (Z.to_nat (timeout - now wd))
  end.

Lemma recv_sending {A} (a : A) (pool : list A) (timeout : Z) (wd : World) :
  let '((r, ch'), wd') := warmup.recv E (warmup.sending a pool timeout) wd in
  r = Some a /\ now wd' = now wd /\
  (ch' = warmup.closed \/ (now wd < timeout /\ exists a', ch' = warmup.sending a' pool timeout)).
Proof.
  unfold warmup.recv, warmup.produce, time.fired, rand.Intn. run.
  destruct (Z.leb_spec timeout (now wd)); cbn.
  - auto.
  - repeat split. right. split; [lia|]. eexists; reflexivity.
Qed.

Lemma paced_clock (delay : Z) (wd : World) :
  0 < pacing delay -> now (paced delay wd) = now wd + pacing delay.
Proof.
  intros Hd. unfold paced, time.Sleep. cbn.
  destruct (Z.ltb_spec 0 (pacing delay)); [reflexivity | lia].
Qed.

Lemma remaining_next {A} (ch' : warmup.chan A) (a : A) (pool : list A) (timeout : Z)
    (wd wd2 : World) (fuel : nat) :
  (remaining (warmup.sending a pool timeout) wd < S fuel)%nat ->
  now wd + 1 <= now wd2 ->
  ch' = warmup.closed \/ (now wd < timeout /\ exists a', ch' = warmup.sending a' pool timeout) ->
  (remaining ch' wd2 < fuel)%nat.
Proof.
  cbn. intros Hfuel Hclock [-> | (Hlt & a' & ->)]; cbn; lia.
Qed.

Lemma HTTPWarmupWorker_returns (w : warmup.Warmup) (headers : list string) (delay : Z) :
  0 < pacing delay ->
  forall (fuel : nat) (requests : warmup.chan http.Request) (st : warmup.State G),
  (remaining requests (warmup.world st) < fuel)%nat ->
  exists st', warmup.HTTPWarmupWorker E fuel w requests headers delay st = Some st'.
Proof.
  intros Hd. induction fuel as [|fuel IH]; intros requests st Hfuel; [lia|].
  cbn [warmup.HTTPWarmupWorker].
  pose proof (liftW_frame G (warmup.recv E requests) st) as (Hr & Hw & _).
  destruct (warmup.liftW (warmup.recv E requests) st) as [[r requests'] st1].
  cbn [fst snd] in Hr, Hw.
  destruct requests as [|a pool timeout].
  - cbn in Hr. inversion Hr; subst. eexists; reflexivity.
  - pose proof (recv_sending a pool timeout (warmup.world st)) as Hrecv.
    destruct (warmup.recv E (warmup.sending a pool timeout) (warmup.world st))
      as [[r0 ch0] wd0].
    cbn [fst snd] in Hr, Hw. inversion Hr; subst r0 ch0.
    destruct Hrecv as (-> & Hnow & Hch).
    pose proof (HTTPWarmupWorker_body_spec E G w a headers delay st1) as Hbody.
    cbv zeta in Hbody.
    pose proof (http_SendRequest_clock (warmup.httpClient (warmup.Target_ w))
                  (http.Method a) (http.Path a) headers (http.Body a)
                  (paced delay (warmup.world st1))) as Hmono.
    destruct (http.SendRequest E _ _ _ _ _ _) as [resp wd2].
    destruct (warmup.HTTPWarmupWorker_body E w a headers delay st1) as [u st2].
    cbn [snd] in Hbody, Hmono. destruct Hbody as (Hworld & _).
    apply IH. rewrite Hworld. eapply remaining_next; [exact Hfuel | | exact Hch].
    cbn [now record]. rewrite paced_clock in Hmono by exact Hd. rewrite Hw in Hmono. lia.
Qed.

Lemma GrpcWarmupWorker_returns (headers : list string) (delay : Z) :
  0 < pacing delay ->
  forall (fuel : nat) (requests : warmup.chan warmup.GrpcRequest) (st : warmup.State G),
  (remaining requests (warmup.world st) < fuel)%nat ->
  exists st', warmup.GrpcWarmupWorker E SendRequest fuel requests headers delay st = Some st'.
Proof.
  intros Hd. induction fuel as [|fuel IH]; intros requests st Hfuel; [lia|].
  cbn [warmup.GrpcWarmupWorker].
  pose proof (liftW_frame G (warmup.recv E requests) st) as (Hr & Hw & _).
  destruct (warmup.liftW (warmup.recv E requests) st) as [[r requests'] st1].
  cbn [fst snd] in Hr, Hw.
  destruct requests as [|a pool timeout].
  - cbn in Hr. inversion Hr; subst. eexists; reflexivity.
  - pose proof (recv_sending a pool timeout (warmup.world st)) as Hrecv.
    destruct (warmup.recv E (warmup.sending a pool timeout) (warmup.world st))
      as [[r0 ch0] wd0].
    cbn [fst snd] in Hr, Hw. inversion Hr; subst r0 ch0.
    destruct Hrecv as (-> & Hnow & Hch).
    pose proof (GrpcWarmupWorker_body_spec G SendRequest a headers delay st1) as Hbody.
    cbv zeta in Hbody.
    pose proof (SendRequest_clock (warmup.grpcClient st1) (warmup.ServiceMethod a)
                  (warmup.Message a) headers false
                  (paced delay (warmup.world st1))) as Hmono.
    destruct (SendRequest _ _ _ _ _ _) as [[resp g] wd2].
    destruct (warmup.GrpcWarmupWorker_body SendRequest a headers delay st1) as [u st2].
    cbn [snd] in Hbody, Hmono. destruct Hbody as (Hworld & _).
    apply IH. rewrite Hworld. eapply remaining_next; [exact Hfuel | | exact Hch].
    cbn [now record]. rewrite paced_clock in Hmono by exact Hd. rewrite Hw in Hmono. lia.
Qed.

(** A goroutine started by [Run] returns, given fuel for [2 + the
    nanoseconds of the run's duration] receives. *)
Lemma goroutine_returns (w : warmup.Warmup) (maxDurationSeconds : Z) (p : warmup.Proto)
    (st : warmup.State G) :
  0 < pacing (warmup.RequestDelayMilliseconds w) ->
  exists st',
    warmup.goroutine E SendRequest
      (2 + Z.to_nat (Go.mul maxDurationSeconds time.Second)) w maxDurationSeconds p st
    = Some st'.
Proof.
  intros Hd. unfold warmup.goroutine.
  assert (Hsrc : forall A (pool : list A),
    (remaining (fst (warmup.requestSource E pool maxDurationSeconds (warmup.world st)))
               (snd (warmup.requestSource E pool maxDurationSeconds (warmup.world st)))
     < 2 + Z.to_nat (Go.mul maxDurationSeconds time.Second))%nat).
  { intros A [|a0 pool]; cbn; [lia|].
    unfold warmup.produce, time.fired, rand.Intn. run.
    destruct (Z.leb_spec (now (warmup.world st) + Go.mul maxDurationSeconds time.Second)
                         (now (warmup.world st))); cbn; lia. }
  destruct p.
  - pose proof (liftW_frame G (warmup.GetWarmupHTTPRequests E w maxDurationSeconds) st)
      as (Hr & Hw & _).
    destruct (warmup.liftW _ st) as [requests st1]. cbn [fst snd] in Hr, Hw.
    apply HTTPWarmupWorker_returns; [exact Hd|]. rewrite Hr, Hw. apply Hsrc.
  - pose proof (liftW_frame G (warmup.GetWarmupGrpcRequests E w maxDurationSeconds) st)
      as (Hr & Hw & _).
    destruct (warmup.liftW _ st) as [requests st1]. cbn [fst snd] in Hr, Hw.
    apply GrpcWarmupWorker_returns; [exact Hd|]. rewrite Hr, Hw. apply Hsrc.
Qed.

(** X1: a single-worker run returns: with concurrency 1, one protocol
    configured and a pacing delay of at least a nanosecond, [Run] returns
    once it is given fuel for the receives that fit in its duration. *)
Theorem single_worker_run_returns (w : warmup.Warmup)
    (hasHttpRequests hasGrpcRequests : bool) (maxDurationSeconds : Z) (st : warmup.State G) :
  warmup.Concurrency w = 1 ->
  xorb hasHttpRequests hasGrpcRequests = true ->
  0 < pacing (warmup.RequestDelayMilliseconds w) ->
  exists st',
    warmup.Run E Connect SendRequest
      (2 + Z.to_nat (Go.mul maxDurationSeconds time.Second)) w
      hasHttpRequests hasGrpcRequests maxDurationSeconds st
    = Returned st'.
Proof.
  intros HC Hx Hd. unfold warmup.Run.
  destruct (launch_single G Connect w hasHttpRequests hasGrpcRequests st HC Hx)
    as (st1 & Hl & _ & _ & Hgo).
  rewrite Hl. unfold warmup.wg_Wait.
  destruct Hgo as [Hgo | [p Hgo]]; rewrite Hgo.
  - eexists; reflexivity.
  - destruct (goroutine_returns w maxDurationSeconds p st1 Hd) as [st' Hst'].
    rewrite Hst'. eexists; reflexivity.
Qed.

End Termination.

(* ================================================================== *)
(** ** The scenarios, run *)

(** Witness for C6: three workers over six seconds.  The interval is 2 s;
    the launcher logs, sleeps 2 s, logs, sleeps 2 s, logs, and the third
    worker is spawned 4 s after the first. *)
Lemma ramp_up_schedule_witness :
  Go.div 6 3 = Some 2 /\
  (let http := warmup.world (snd (warmup.spawnHTTP Scenario.w_ramp 2
                                    (Scenario.state0 tt Scenario.world0))) in
   trace http = [EvLog LogSpawnHTTP; EvSleep (2 * time.Second); EvLog LogSpawnHTTP;
                 EvSleep (2 * time.Second); EvLog LogSpawnHTTP] /\
   now http = 4 * time.Second).
Proof.
  pose proof (ramp_up_schedule unit Scenario.w_ramp (Scenario.state0 tt Scenario.world0)
                ltac:(reflexivity) ltac:(split; discriminate))
    as (Hdiv & _ & _ & _ & _ & Htr & _ & Hnow & _).
  split; [exact Hdiv|]. split; [exact Htr | exact Hnow].
Defined.

(** Witness for C5: three HTTP workers are spawned, the connect is
    refused, and the run is left with those three workers. *)
Lemma grpc_phase_connects_once_witness :
  exists st',
    warmup.launch Scenario.refused_Connect Scenario.w_ramp true true
                  (Scenario.state0 tt Scenario.world0) = Returned st' /\
    warmup.ctl st' =
      [warmup.CtlSpawn warmup.HTTP 1; warmup.CtlSpawn warmup.HTTP 2;
       warmup.CtlSpawn warmup.HTTP 3; warmup.CtlConnect (Some "connection refused"%string)].
Proof.
  destruct (grpc_phase_connects_once unit Scenario.refused_Connect Scenario.w_ramp true
              (Scenario.state0 tt Scenario.world0) ltac:(discriminate))
    as (interval & st_http & st' & _ & Hrun & Hhttp & _ & _ & Hctl & _).
  exists st'. split; [exact Hrun|]. rewrite Hctl, Hhttp. reflexivity.
Defined.

(** Witness for C7: one HTTP worker pacing by 600 ms for one second
    against the scenario server. *)
Lemma single_worker_counter_witness :
  let st := Scenario.state0 tt Scenario.world0 in
  match warmup.Run Scenario.env_up Scenario.no_Connect Scenario.no_SendRequest 10
                   Scenario.w_http true false 1 st with
  | Returned st' =>
      exists new,
        warmup.sends st' = warmup.sends st ++ new /\
        warmup.requestsSentCounter st' = Go.wrap (Z.of_nat (successes new)) /\
        (Z.of_nat (successes new) <= Go.max_int ->
         warmup.requestsSentCounter st' = Z.of_nat (successes new)) /\
        (forall request r1 r2 (s : warmup.State unit),
           Err r1 = Err r2 ->
           warmup.requestsSentCounter (snd (warmup.http_outcome request r1 s)) =
           warmup.requestsSentCounter (snd (warmup.http_outcome request r2 s)))
  | _ => False
  end.
Proof.
  cbv zeta.
  destruct (warmup.Run Scenario.env_up Scenario.no_Connect Scenario.no_SendRequest 10
              Scenario.w_http true false 1 (Scenario.state0 tt Scenario.world0))
    as [st' | msg | | st'] eqn:Hrun.
  - exact (single_worker_counter Scenario.env_up unit Scenario.no_Connect
             Scenario.no_SendRequest 10 Scenario.w_http true false 1
             (Scenario.state0 tt Scenario.world0) st' eq_refl eq_refl eq_refl Hrun).
  - vm_compute in Hrun. discriminate Hrun.
  - vm_compute in Hrun. discriminate Hrun.
  - vm_compute in Hrun. discriminate Hrun.
Defined.

(** Witness for C9: the same worker; it sends three times. *)
Lemma pacing_sleep_before_every_send_witness :
  let '(requests, wd) :=
    warmup.GetWarmupHTTPRequests Scenario.env_up Scenario.w_http 1 Scenario.world0 in
  let st := Scenario.state0 tt wd in
  match warmup.HTTPWarmupWorker Scenario.env_up 10 Scenario.w_http requests [] 600 st with
  | Some st' =>
      exists new,
        warmup.sends st' = warmup.sends st ++ new /\
        Forall (fun s =>
                  exists wd0,
                    warmup.send_entry s =
                      snd (time.Sleep (Go.mul 600 time.Millisecond) wd0) /\
                    trace (warmup.send_entry s) =
                      trace wd0 ++ [EvSleep (Go.mul 600 time.Millisecond)]) new
  | None => False
  end.
Proof.
  destruct (warmup.GetWarmupHTTPRequests Scenario.env_up Scenario.w_http 1 Scenario.world0)
    as [requests wd] eqn:Hsrc.
  cbv zeta.
  destruct (warmup.HTTPWarmupWorker Scenario.env_up 10 Scenario.w_http requests [] 600
              (Scenario.state0 tt wd)) as [st'|] eqn:Hrun.
  - exact (pacing_sleep_before_every_send Scenario.env_up unit Scenario.no_SendRequest 10
             Scenario.w_http requests warmup.closed [] 600 (Scenario.state0 tt wd) st'
             (or_introl Hrun)).
  - vm_compute in Hsrc. inversion Hsrc; subst requests wd.
    vm_compute in Hrun. discriminate Hrun.
Defined.

(** C1 (the code departs from it): against a server that accepts the
    connection and fails every invocation, the client's [Request] returns
    an outcome without an error, and a gRPC worker driving that client for
    one second ends with the counter at 2 after two invocations that both
    failed. *)
Theorem failed_invocation_counted_as_success :
  let E := Scenario.env_unavailable in
  let '(c, wd) := grpc.NewClient "localhost:50051" true 5 Scenario.world0 in
  snd (grpcurl_InvokeRPC E wd None None "" [] (parser_id 0)) = Some "rpc error: Unavailable"%string /\
  Err (fst (fst (grpc.Request E c "grpc.health.v1.Health/Check" "{}" [] wd))) = None /\
  match warmup.goroutine E (Scenario.Request_transport E) 5 Scenario.w_grpc 1 warmup.GRPC
                         (Scenario.state0 c wd) with
  | Some st' =>
      map (fun s => Err (warmup.send_outcome s)) (warmup.sends st') = [None; None] /\
      List.length (filter (fun e => match e with EvInvokeRPC _ => true | _ => false end)
                          (trace (warmup.world st'))) = 2%nat /\
      warmup.requestsSentCounter st' = 2
  | None => False
  end.
Proof.
  vm_compute. repeat split.
Qed.

(** Witness for X1: the HTTP worker of the scenario. *)
Lemma single_worker_run_returns_witness :
  exists st',
    warmup.Run Scenario.env_up Scenario.no_Connect Scenario.no_SendRequest
      (2 + Z.to_nat (Go.mul 1 time.Second)) Scenario.w_http true false 1
      (Scenario.state0 tt Scenario.world0)
    = Returned st'.
Proof.
  exact (single_worker_run_returns Scenario.env_up unit Scenario.no_Connect
           Scenario.no_SendRequest (fun _ _ _ _ _ wd => Z.le_refl (now wd))
           Scenario.w_http true false 1 (Scenario.state0 tt Scenario.world0)
           eq_refl eq_refl eq_refl).
Defined.


(** Witness for X6: concurrency -1; the launcher returns having spawned
    nothing. *)
Lemma negative_concurrency_spawns_nothing_witness :
  exists st',
    warmup.launch Scenario.no_Connect Scenario.w_negative true false
                  (Scenario.state0 tt Scenario.world0) = Returned st' /\
    warmup.goroutines st' = [] /\
    warmup.ctl st' = warmup.ctl (Scenario.state0 tt Scenario.world0).
Proof.
  exact (negative_concurrency_spawns_nothing unit Scenario.no_Connect Scenario.w_negative true
           (Scenario.state0 tt Scenario.world0) eq_refl).
Defined.

(* ================================================================== *)
(** ** More on the HTTP client *)

Section Trimming.

(** Every character of [s] is in [cutset]. *)
Fixpoint within (cutset s : string) : bool :=
  match s with
  | EmptyString => true
  | String c rest => strings.contains cutset c && within cutset rest
  end.

(** [s] starts with a character of [cutset]. *)
Definition starts_in (cutset s : string) : bool :=
  match s with
  | EmptyString => false
  | String c _ => strings.contains cutset c
  end.

(** [s] ends with a character of [cutset]. *)
Fixpoint ends_in (cutset s : string) : bool :=
  match s with
  | EmptyString => false
  | String c EmptyString => strings.contains cutset c
  | String _ rest => ends_in cutset rest
  end.

Lemma TrimLeft_spec (cutset s : string) :
  exists lead,
    s = String.append lead (strings.TrimLeft s cutset) /\
    within cutset lead = true /\
    starts_in cutset (strings.TrimLeft s cutset) = false.
Proof.
  induction s as [|c rest IH].
  - exists EmptyString. auto.
  - cbn [strings.TrimLeft]. destruct (strings.contains cutset c) eqn:Hc.
    + destruct IH as (lead & Heq & Hin & Hst).
      exists (String c lead). cbn. rewrite Hc, Hin, <- Heq. auto.
    + exists EmptyString. cbn. auto.
Qed.

Lemma TrimRight_spec (cutset s : string) :
  exists tail,
    s = String.append (strings.TrimRight s cutset) tail /\
    within cutset tail = true /\
    ends_in cutset (strings.TrimRight s cutset) = false.
Proof.
  induction s as [|c rest IH].
  - exists EmptyString. auto.
  - destruct IH as (tail & Heq & Hin & Hend).
    cbn [strings.TrimRight].
    destruct (strings.TrimRight rest cutset) as [|d rest'] eqn:Hrest.
    + cbn in Heq. subst tail.
      destruct (strings.contains cutset c) eqn:Hc.
      * exists (String c rest). cbn. rewrite Hc, Hin. auto.
      * exists rest. cbn. rewrite Hc. auto.
    + exists tail. split; [| split; assumption].
      change (String c rest = String c (String.append (String d rest') tail)).
      f_equal. exact Heq.
Qed.

(** X7: the URL a client built by [NewClient] sends a request to is the
    host without its trailing slashes, one slash, and the path without its
    leading slashes: however many slashes the host ends with and the path
    starts with, exactly one separates them. *)
Theorem url_joined_by_one_slash (host : string) (insecure : bool) (path : string) :
  exists h tail lead p,
    host = String.append h tail /\ within "/" tail = true /\ ends_in "/" h = false /\
    path = String.append lead p /\ within "/" lead = true /\ starts_in "/" p = false /\
    http.host (http.NewClient host insecure) = h /\
    url_of (http.NewClient host insecure) path = String.append h (String.append "/" p).
Proof.
  destruct (TrimRight_spec "/" host) as (tail & Hh & Htail & Hend).
  destruct (TrimLeft_spec "/" path) as (lead & Hp & Hlead & Hstart).
  exists (strings.TrimRight host "/"), tail, lead, (strings.TrimLeft path "/").
  repeat split; assumption.
Qed.

End Trimming.

(** Further environments. *)
Module Cases.

(** net/http refuses to build any request ("invalid method"); the server
    of the scenario otherwise. *)
Definition env_invalid_method : Env :=
  mkEnv
    (fun _ _ _ => inr "net/http: invalid method"%string)
    (httpClient_Do Scenario.env_up)
    (io_Copy_Discard Scenario.env_up)
    (util_ToHeaders Scenario.env_up)
    (placeholders_InterpolatePlaceholders Scenario.env_up)
    (grpc_DialContext Scenario.env_up)
    (grpcurl_DescriptorSourceFromServer Scenario.env_up)
    (grpcurl_RequestParserAndFormatterFor Scenario.env_up)
    (grpcurl_InvokeRPC Scenario.env_up)
    (conn_Close Scenario.env_up)
    (rand_Int63 Scenario.env_up).

(** grpcurl cannot parse any message; the server of the scenario
    otherwise. *)
Definition env_bad_message : Env :=
  mkEnv
    (http_NewRequest Scenario.env_up)
    (httpClient_Do Scenario.env_up)
    (io_Copy_Discard Scenario.env_up)
    (util_ToHeaders Scenario.env_up)
    (placeholders_InterpolatePlaceholders Scenario.env_up)
    (grpc_DialContext Scenario.env_up)
    (grpcurl_DescriptorSourceFromServer Scenario.env_up)
    (fun _ _ _ => inr "invalid character"%string)
    (grpcurl_InvokeRPC Scenario.env_up)
    (conn_Close Scenario.env_up)
    (rand_Int63 Scenario.env_up).

(** A client built in the empty world, and the world it is built in. *)
Definition fresh : grpc.Client * World :=
  grpc.NewClient "localhost:50051" true 5 Scenario.world0.

(** That client and the world after one call against [E]. *)
Definition called (E : Env) : grpc.Client * World :=
  let '((_, c), wd) :=
    grpc.Request E (fst fresh) "grpc.health.v1.Health/Check" "{}" [] (snd fresh) in
  (c, wd).

End Cases.

Section HttpCases.
Variable E : Env.

Lemma Sub_elapsed (t : Z) (dt : N) :
  0 <= time.Sub (t + Z.of_N dt) t <= Go.max_int.
Proof.
  unfold time.Sub, Go.min_int, Go.max_int. pose proof (N2Z.is_nonneg dt). lia.
Qed.

(** X8: when net/http cannot build the request, [SendRequest] logs the
    failure with the method and the URL, makes no network call, lets no
    time pass, and returns an outcome with that error, a zero duration and
    no status code. *)
Theorem SendRequest_unbuildable (c : http.Client) (method path : string)
    (headers : list string) (requestBody : option string) (wd : World) (err : error) :
  http_NewRequest E method (url_of c path) requestBody = inr err ->
  http.SendRequest E c method path headers requestBody wd =
  (mkResponse 0 (Some err) "http" 0,
   record (EvLog (LogFailedToCreate method (url_of c path) err)) wd).
Proof.
  intros Hreq. unfold http.SendRequest. fold (url_of c path). rewrite Hreq. reflexivity.
Qed.

(** X9: when the request is built, [SendRequest] calls [Do] once with the
    request carrying the run's headers.  If [Do] fails, the outcome has
    its error and no status code, and no body is drained or closed.  If
    [Do] answers, the body is drained and then closed, once each, whether
    or not the drain fails; the outcome has the response's status code
    and the error of the drain, if any. *)
Theorem SendRequest_sent (c : http.Client) (method path : string)
    (headers : list string) (requestBody : option string) (wd : World) (req : HttpRequest) :
  http_NewRequest E method (url_of c path) requestBody = inl req ->
  let sent := http.withHeaders E wd headers req in
  let '(r, wd') := http.SendRequest E c method path headers requestBody wd in
  match snd (httpClient_Do E wd sent) with
  | inr err =>
      Err r = Some err /\ StatusCode r = 0 /\
      trace wd' = trace wd ++ [EvHttpDo sent]
  | inl resp =>
      let after_Do :=
        elapse (Z.of_N (fst (httpClient_Do E wd sent))) (record (EvHttpDo sent) wd) in
      Err r = snd (io_Copy_Discard E after_Do resp) /\
      StatusCode r = hres_StatusCode resp /\
      trace wd' = trace wd ++ [EvHttpDo sent; EvDrain; EvBodyClose]
  end.
Proof.
  intros Hreq sent.
  unfold http.SendRequest. fold (url_of c path). rewrite Hreq.
  run. unfold http.Do. fold sent.
  destruct (httpClient_Do E wd sent) as [dt [resp | err]]; cbn [fst snd].
  - unfold http.Copy_Discard.
    destruct (io_Copy_Discard E _ resp) as [dt' [err|]]; cbn;
      rewrite <- !app_assoc; auto.
  - cbn. auto.
Qed.

(** X10: whatever happens, the outcome of [SendRequest] is tagged "http",
    its duration is between zero and the largest Duration, and the clock
    has not gone back. *)
Theorem SendRequest_outcome_bounds (c : http.Client) (method path : string)
    (headers : list string) (requestBody : option string) (wd : World) :
  let '(r, wd') := http.SendRequest E c method path headers requestBody wd in
  Type_ r = "http"%string /\ 0 <= Duration r <= Go.max_int /\ now wd <= now wd'.
Proof.
  unfold http.SendRequest.
  destruct (http_NewRequest E method _ requestBody) as [req | err]; run.
  - unfold http.Do, http.Copy_Discard.
    destruct (httpClient_Do E wd _) as [dt [resp | err]]; cbn.
    + destruct (io_Copy_Discard E _ resp) as [dt' [err|]]; cbn;
        (split; [reflexivity|]); (split; [apply Sub_elapsed|]);
        pose proof (N2Z.is_nonneg dt); pose proof (N2Z.is_nonneg dt'); lia.
    + split; [reflexivity|]. split; [apply Sub_elapsed|].
      pose proof (N2Z.is_nonneg dt); lia.
  - cbn. unfold Go.max_int. repeat split; lia.
Qed.




End HttpCases.

(** Witness for X8: a request with an invalid method. *)
Lemma SendRequest_unbuildable_witness :
  http.SendRequest Cases.env_invalid_method Scenario.localhost "G T" "/a" [] None
                   Scenario.world0 =
  (mkResponse 0 (Some "net/http: invalid method"%string) "http" 0,
   record (EvLog (LogFailedToCreate "G T" "http://localhost:8080/a"
                                    "net/http: invalid method"%string))
          Scenario.world0).
Proof.
  exact (SendRequest_unbuildable Cases.env_invalid_method Scenario.localhost "G T" "/a" []
           None Scenario.world0 "net/http: invalid method"%string eq_refl).
Defined.

(** Witness for X9: GET /a against the scenario server. *)
Lemma SendRequest_sent_witness :
  let '(r, wd') :=
    http.SendRequest Scenario.env_up Scenario.localhost "GET" "/a" [] None Scenario.world0 in
  Err r = None /\ StatusCode r = 200 /\
  trace wd' =
    [EvHttpDo (mkHttpRequest "GET" "http://localhost:8080/a" None "" []); EvDrain;
     EvBodyClose].
Proof.
  exact (SendRequest_sent Scenario.env_up Scenario.localhost "GET" "/a" [] None
           Scenario.world0 (mkHttpRequest "GET" "http://localhost:8080/a" None "" [])
           eq_refl).
Defined.

(* ================================================================== *)
(** ** More on the gRPC client *)

Section GrpcCases.
Variable E : Env.

Lemma connect_refused (c : grpc.Client) (headers : list string) (wd : World) (err : error) :
  snd (grpc_DialContext E (dial_world c wd) (10 * time.Second) (grpc.host c) (grpc.insecure c))
    = inr err ->
  grpc.connect E c headers wd =
  ((Some (Errorf "Grpc dial: " err), c),
   elapse (Z.of_N (fst (grpc_DialContext E (dial_world c wd) (10 * time.Second)
                          (grpc.host c) (grpc.insecure c))))
          (record (EvDial (grpc.host c) (grpc.insecure c)) (dial_world c wd))).
Proof.
  unfold grpc.connect, grpc.DialContext, dial_world. run.
  destruct (grpc.insecure c); run;
    match goal with
    | |- context [grpc_DialContext E ?w ?t ?h ?i] =>
        destruct (grpc_DialContext E w t h i) as [dt [conn | e]]
    end; cbn; intros Heq; inversion Heq; reflexivity.
Qed.

(** X12: the first call of [Request] on a client whose dial is refused
    dials once, logs the connect error, and returns an outcome carrying
    "Grpc dial: " followed by the dial's error, with a zero duration; it
    invokes nothing and leaves the client as it was, without a
    connection to close. *)
Theorem Request_dial_refused (c : grpc.Client) (serviceMethod message : string)
    (headers : list string) (wd : World) (err : error) :
  sync.done (grpc.grpcConnectOnce c) wd = false ->
  snd (grpc_DialContext E (dial_world c wd) (10 * time.Second) (grpc.host c) (grpc.insecure c))
    = inr err ->
  let '((r, c'), wd') := grpc.Request E c serviceMethod message headers wd in
  r = mkResponse 0 (Some (Errorf "Grpc dial: " err)) "grpc" 0 /\
  c' = c /\
  trace wd' =
    trace (dial_world c wd) ++
    [EvDial (grpc.host c) (grpc.insecure c);
     EvLog (LogGrpcConnect (Errorf "Grpc dial: " err))].
Proof.
  intros Hdone Hdial. rewrite Request_unfold. unfold sync.Once_Do. rewrite Hdone.
  rewrite (connect_refused c headers wd err Hdial).
  cbn. rewrite <- app_assoc. auto.
Qed.

(** X13: a call whose message grpcurl cannot parse is not invoked: on a
    client whose [Once] is done, [Request] logs that it cannot construct
    the parser and returns the parser's error with a zero duration,
    without any RPC. *)
Theorem Request_unparsable (c : grpc.Client) (serviceMethod message : string)
    (headers : list string) (wd : World) (err : error) :
  sync.done (grpc.grpcConnectOnce c) wd = true ->
  grpcurl_RequestParserAndFormatterFor E wd (grpc.descriptorSource c) message = inr err ->
  grpc.Request E c serviceMethod message headers wd =
  ((mkResponse 0 (Some err) "grpc" 0, c), record (EvLog LogCannotConstruct) wd).
Proof.
  intros Hdone Hp. rewrite Request_after_first by exact Hdone.
  unfold after_Once. run. rewrite Hp. reflexivity.
Qed.

(** X14: once the [Once] of a client is done, no sequence of calls
    changes the client or dials again: every call runs on the connection
    and the descriptor source the client holds. *)
Theorem connected_client_is_reused (calls : list (string * string * list string)) :
  forall (c : grpc.Client) (wd : World),
  allocated c wd ->
  sync.done (grpc.grpcConnectOnce c) wd = true ->
  let '((_, c'), wd') := Requests E c calls wd in
  c' = c /\ dials wd' = dials wd.
Proof.
  induction calls as [|[[sm msg] hs] rest IH]; intros c wd Halloc Hdone.
  - cbn. auto.
  - cbn [Requests]. unfold bind at 1.
    pose proof (Request_dials E c sm msg hs wd Halloc) as Hd.
    pose proof (Request_after_first E c sm msg hs wd Hdone) as Heq.
    pose proof (after_Once_client E None c sm msg hs wd) as Hc.
    rewrite <- Heq in Hc.
    destruct (grpc.Request E c sm msg hs wd) as [[r c1] wd1].
    cbn in Hc. subst c1. destruct Hd as (Halloc1 & Hdone1 & Hdials1).
    rewrite Hdone in Hdials1.
    specialize (IH c wd1 Halloc1 Hdone1).
    unfold bind. destruct (Requests E c rest wd1) as [[rs c2] wd2].
    destruct IH as [-> Hdials2]. split; [reflexivity | lia].
Qed.

(** X15: after a first call whose dial succeeded, [Close] cancels the
    client's context and closes the very connection that was dialed, and
    returns what closing it returned. *)
Theorem Close_closes_the_dialed_connection (c : grpc.Client)
    (serviceMethod message : string) (headers : list string) (wd wd2 : World)
    (conn : ClientConn) :
  sync.done (grpc.grpcConnectOnce c) wd = false ->
  snd (grpc_DialContext E (dial_world c wd) (10 * time.Second) (grpc.host c) (grpc.insecure c))
    = inl conn ->
  let c' := snd (fst (grpc.Request E c serviceMethod message headers wd)) in
  let closing := record EvCancel (record (EvLog LogClosing) wd2) in
  grpc.Close E c' wd2 = (conn_Close E closing conn, record (EvConnClose conn) closing).
Proof.
  intros Hdone Hdial c' closing.
  assert (Hclose : grpc.connClose c' = grpc.close_conn conn).
  { subst c'. rewrite Request_unfold. unfold sync.Once_Do. rewrite Hdone.
    pose proof (connect_client E c headers wd) as Hc. rewrite Hdial in Hc.
    destruct (grpc.connect E c headers wd) as [[connErr c1] wd1].
    rewrite after_Once_client. tauto. }
  unfold grpc.Close. rewrite Hclose. reflexivity.
Qed.

(** X16: whatever happens, the outcome of [Request] is tagged "grpc" and
    has no status code, its duration is between zero and the largest
    Duration, and the clock has not gone back. *)
Theorem Request_outcome_bounds (c : grpc.Client) (serviceMethod message : string)
    (headers : list string) (wd : World) :
  let '((r, _), wd') := grpc.Request E c serviceMethod message headers wd in
  Type_ r = "grpc"%string /\ StatusCode r = 0 /\
  0 <= Duration r <= Go.max_int /\ now wd <= now wd'.
Proof.
  rewrite Request_unfold. unfold sync.Once_Do.
  assert (Hafter : forall connErr c1 wd1,
    now wd <= now wd1 ->
    let '((r, _), wd') := after_Once E connErr c1 serviceMethod message headers wd1 in
    Type_ r = "grpc"%string /\ StatusCode r = 0 /\
    0 <= Duration r <= Go.max_int /\ now wd <= now wd').
  { intros connErr c1 wd1 Hle. unfold after_Once. destruct connErr as [e|]; run.
    - cbn. unfold Go.max_int. repeat split; lia.
    - destruct (grpcurl_RequestParserAndFormatterFor E wd1 (grpc.descriptorSource c1) message)
        as [p | e].
      + unfold grpc.InvokeRPC.
        destruct (grpcurl_InvokeRPC E wd1 _ _ serviceMethod headers p) as [dt [e|]]; cbn;
          (split; [reflexivity|]); (split; [reflexivity|]);
          (split; [apply Sub_elapsed|]); pose proof (N2Z.is_nonneg dt); lia.
      + cbn. unfold Go.max_int. repeat split; lia. }
  destruct (sync.done (grpc.grpcConnectOnce c) wd).
  - apply Hafter. lia.
  - assert (Hconnect : now wd <= now (snd (grpc.connect E c headers wd))).
    { unfold grpc.connect, grpc.DialContext, grpc.DescriptorSourceFromServer. run.
      destruct (grpc.insecure c); run;
        match goal with
        | |- context [grpc_DialContext E ?w ?t ?h ?i] =>
            destruct (grpc_DialContext E w t h i) as [dt [conn | e]]
        end; cbn; pose proof (N2Z.is_nonneg dt); lia. }
    destruct (grpc.connect E c headers wd) as [[connErr c1] wd1].
    apply Hafter. exact Hconnect.
Qed.

End GrpcCases.

(** Witness for X12: a fresh client and a server that refuses the
    connection. *)
Lemma Request_dial_refused_witness :
  let '((r, c'), wd') :=
    grpc.Request Scenario.env_refused (fst Cases.fresh) "grpc.health.v1.Health/Check" "{}" []
                 (snd Cases.fresh) in
  r = mkResponse 0 (Some "Grpc dial: connection refused"%string) "grpc" 0 /\
  c' = fst Cases.fresh /\
  trace wd' =
    [EvLog LogGrpcInsecure; EvLog (LogGrpcConnectingTo "localhost:50051");
     EvDial "localhost:50051" true;
     EvLog (LogGrpcConnect "Grpc dial: connection refused"%string)].
Proof.
  exact (Request_dial_refused Scenario.env_refused (fst Cases.fresh)
           "grpc.health.v1.Health/Check" "{}" [] (snd Cases.fresh)
           "connection refused"%string eq_refl eq_refl).
Defined.

(** Witness for X13: the second call on a connected client, with a
    message that cannot be parsed. *)
Lemma Request_unparsable_witness :
  let '(c, wd) := Cases.called Cases.env_bad_message in
  grpc.Request Cases.env_bad_message c "grpc.health.v1.Health/Check" "{" [] wd =
  ((mkResponse 0 (Some "invalid character"%string) "grpc" 0, c),
   record (EvLog LogCannotConstruct) wd).
Proof.
  exact (Request_unparsable Cases.env_bad_message (fst (Cases.called Cases.env_bad_message))
           "grpc.health.v1.Health/Check" "{" [] (snd (Cases.called Cases.env_bad_message))
           "invalid character"%string eq_refl eq_refl).
Defined.

(** Witness for X14: two more calls on a connected client. *)
Lemma connected_client_is_reused_witness :
  let '(c, wd) := Cases.called Scenario.env_up in
  let '((_, c'), wd') :=
    Requests Scenario.env_up c
      [("grpc.health.v1.Health/Check", "{}", []); ("grpc.health.v1.Health/Check", "{}", [])]%string
      wd in
  c' = c /\ dials wd' = dials wd.
Proof.
  exact (connected_client_is_reused Scenario.env_up
           [("grpc.health.v1.Health/Check", "{}", []);
            ("grpc.health.v1.Health/Check", "{}", [])]%string
           (fst (Cases.called Scenario.env_up)) (snd (Cases.called Scenario.env_up))
           (le_n 1) eq_refl).
Defined.

(** Witness for X15: a fresh client, a server that accepts the
    connection, and [Close] in the world the call left. *)
Lemma Close_closes_the_dialed_connection_witness :
  let '(c, wd) := Cases.called Scenario.env_up in
  let closing := record EvCancel (record (EvLog LogClosing) wd) in
  grpc.Close Scenario.env_up c wd = (None, record (EvConnClose (conn_id 0)) closing).
Proof.
  exact (Close_closes_the_dialed_connection Scenario.env_up (fst Cases.fresh)
           "grpc.health.v1.Health/Check" "{}" [] (snd Cases.fresh)
           (snd (Cases.called Scenario.env_up)) (conn_id 0) eq_refl eq_refl).
Defined.

(* ================================================================== *)
(** ** More on the workers and the launcher *)

Section WarmupCases.
Variable E : Env.
Variable G : Type.
Variable Connect : G -> list string -> M World (option error * G).
Variable SendRequest : G -> string -> string -> list string -> bool -> M World (Response * G).

Lemma quot_100_is_2 (s : Z) : Z.quot s 100 = 2 <-> 200 <= s <= 299.
Proof.
  destruct (Z_le_gt_dec 0 s) as [Hpos | Hneg].
  - rewrite Z.quot_div_nonneg by lia.
    pose proof (Z.div_mod s 100 ltac:(lia)). pose proof (Z.mod_pos_bound s 100 ltac:(lia)).
    lia.
  - replace s with (- (- s)) at 1 by lia. rewrite Z.quot_opp_l by lia.
    rewrite Z.quot_div_nonneg by lia.
    pose proof (Z.div_pos (- s) 100 ltac:(lia) ltac:(lia)). lia.
Qed.

(** X17: for an outcome without an error, the HTTP worker logs the green
    line exactly when the status code is between 200 and 299, and the red
    line for every other status code; either way it logs one line. *)
Theorem http_green_iff_2xx (request : http.Request) (resp : Response) (st : warmup.State G) :
  Err resp = None ->
  let wd' := warmup.world (snd (warmup.http_outcome request resp st)) in
  let ms := Z.quot (Duration resp) time.Millisecond in
  (200 <= StatusCode resp <= 299 ->
   wd' = record (EvLog (LogHttpGreen (Type_ resp) ms (StatusCode resp)
                                     (http.Method request) (http.Path request)))
                (warmup.world st)) /\
  (~ 200 <= StatusCode resp <= 299 ->
   wd' = record (EvLog (LogHttpRed (Type_ resp) ms (StatusCode resp)
                                   (http.Method request) (http.Path request)))
                (warmup.world st)).
Proof.
  intros Herr. cbv zeta. unfold warmup.http_outcome. rewrite Herr.
  unfold warmup.incr_requestsSentCounter, warmup.liftW. run.
  pose proof (quot_100_is_2 (StatusCode resp)) as Hq.
  destruct (Z.eqb_spec (Z.quot (StatusCode resp) 100) 2) as [H2 | H2]; cbn;
    split; intros Hs; try reflexivity; exfalso; tauto.
Qed.

(** *** What a source hands over *)

(** A channel of a source over [pool]: closed, or holding a value of the
    pool. *)
Definition chan_over {A} (pool : list A) (ch : warmup.chan A) : Prop :=
  match ch with
  | warmup.closed => True
  | warmup.sending a pool' _ => pool' = pool /\ In a pool
  end.

Lemma nth_in_pool {A} (pool : list A) (a0 : A) (k : nat) :
  In a0 pool -> In (nth k pool a0) pool.
Proof.
  intros H0. destruct (nth_in_or_default k pool a0) as [Hin | Heq]; [exact Hin|].
  rewrite Heq. exact H0.
Qed.

Lemma produce_over {A} (pool : list A) (a0 : A) (timeout : Z) (wd : World) :
  In a0 pool -> chan_over pool (fst (warmup.produce E pool a0 timeout wd)).
Proof.
  intros H0. unfold warmup.produce, rand.Intn. destruct (time.fired timeout wd); cbn.
  - exact I.
  - split; [reflexivity | apply nth_in_pool; exact H0].
Qed.

Lemma requestSource_over {A} (pool : list A) (maxDurationSeconds : Z) (wd : World) :
  chan_over pool (fst (warmup.requestSource E pool maxDurationSeconds wd)).
Proof.
  unfold warmup.requestSource. destruct pool as [|a0 pool]; [exact I|].
  run. apply produce_over. left. reflexivity.
Qed.

Lemma recv_over {A} (pool : list A) (ch : warmup.chan A) (wd : World) :
  chan_over pool ch ->
  let '((r, ch'), _) := warmup.recv E ch wd in
  chan_over pool ch' /\ match r with Some a => In a pool | None => True end.
Proof.
  destruct ch as [|a pool' timeout]; cbn.
  - auto.
  - intros [-> Hin]. unfold warmup.recv. run.
    pose proof (produce_over pool a timeout wd Hin) as Hp.
    destruct (warmup.produce E pool a timeout wd) as [ch' wd']. cbn in *. auto.
Qed.

(** The sends of a worker of protocol [p] whose targets are among [targets]. *)
Definition sends_among (p : warmup.Proto) (targets : list string) (new : list warmup.Send)
  : Prop :=
  Forall (fun s => warmup.send_proto s = p /\ In (warmup.send_target s) targets) new.

Lemma HTTPWarmupWorker_over (pool : list http.Request) (w : warmup.Warmup)
    (headers : list string) (delay : Z) (fuel : nat) :
  forall (requests : warmup.chan http.Request) (st st' : warmup.State G),
  chan_over pool requests ->
  warmup.HTTPWarmupWorker E fuel w requests headers delay st = Some st' ->
  exists new,
    warmup.sends st' = warmup.sends st ++ new /\
    sends_among warmup.HTTP (map http.Path pool) new.
Proof.
  induction fuel as [|fuel IH]; intros requests st st' Hover Hrun; [discriminate Hrun|].
  cbn [warmup.HTTPWarmupWorker] in Hrun.
  pose proof (liftW_frame G (warmup.recv E requests) st) as (Hr & _ & _ & Hs1 & _).
  pose proof (recv_over pool requests (warmup.world st) Hover) as Hrecv.
  destruct (warmup.liftW (warmup.recv E requests) st) as [[r requests'] st1].
  cbn [fst snd] in Hr, Hs1.
  destruct (warmup.recv E requests (warmup.world st)) as [[r0 ch0] wd0].
  cbn [fst] in Hr. inversion Hr; subst r0 ch0. destruct Hrecv as [Hover' Hin].
  destruct r as [request|].
  - pose proof (HTTPWarmupWorker_body_spec E G w request headers delay st1) as Hbody.
    cbv zeta in Hbody.
    destruct (http.SendRequest E _ _ _ _ _ _) as [resp wd2].
    destruct (warmup.HTTPWarmupWorker_body E w request headers delay st1) as [u st2].
    cbn [snd] in Hbody. destruct Hbody as (_ & _ & Hs2 & _).
    destruct (IH _ _ _ Hover' Hrun) as (new & Hs & Hall).
    eexists. split.
    + rewrite Hs, Hs2, Hs1, <- app_assoc. reflexivity.
    + constructor; [| exact Hall]. cbn. split; [reflexivity|].
      apply in_map. exact Hin.
  - inversion Hrun; subst st'. exists []. cbn. rewrite app_nil_r.
    split; [exact Hs1 | constructor].
Qed.

Lemma GrpcWarmupWorker_over (pool : list warmup.GrpcRequest)
    (headers : list string) (delay : Z) (fuel : nat) :
  forall (requests : warmup.chan warmup.GrpcRequest) (st st' : warmup.State G),
  chan_over pool requests ->
  warmup.GrpcWarmupWorker E SendRequest fuel requests headers delay st = Some st' ->
  exists new,
    warmup.sends st' = warmup.sends st ++ new /\
    sends_among warmup.GRPC (map warmup.ServiceMethod pool) new.
Proof.
  induction fuel as [|fuel IH]; intros requests st st' Hover Hrun; [discriminate Hrun|].
  cbn [warmup.GrpcWarmupWorker] in Hrun.
  pose proof (liftW_frame G (warmup.recv E requests) st) as (Hr & _ & _ & Hs1 & _).
  pose proof (recv_over pool requests (warmup.world st) Hover) as Hrecv.
  destruct (warmup.liftW (warmup.recv E requests) st) as [[r requests'] st1].
  cbn [fst snd] in Hr, Hs1.
  destruct (warmup.recv E requests (warmup.world st)) as [[r0 ch0] wd0].
  cbn [fst] in Hr. inversion Hr; subst r0 ch0. destruct Hrecv as [Hover' Hin].
  destruct r as [request|].
  - pose proof (GrpcWarmupWorker_body_spec G SendRequest request headers delay st1) as Hbody.
    cbv zeta in Hbody.
    destruct (SendRequest _ _ _ _ _ _) as [[resp g] wd2].
    destruct (warmup.GrpcWarmupWorker_body SendRequest request headers delay st1) as [u st2].
    cbn [snd] in Hbody. destruct Hbody as (_ & _ & Hs2 & _).
    destruct (IH _ _ _ Hover' Hrun) as (new & Hs & Hall).
    eexists. split.
    + rewrite Hs, Hs2, Hs1, <- app_assoc. reflexivity.
    + constructor; [| exact Hall]. cbn. split; [reflexivity|].
      apply in_map. exact Hin.
  - inversion Hrun; subst st'. exists []. cbn. rewrite app_nil_r.
    split; [exact Hs1 | constructor].
Qed.

(** X18: a worker only ever sends requests of its pool: every send of
    an HTTP goroutine is for the path of a request in [HttpRequests], and
    every send of a gRPC goroutine for the service method of a request in
    [GrpcRequests]. *)
Theorem sends_are_drawn_from_the_pool (fuel : nat) (w : warmup.Warmup)
    (maxDurationSeconds : Z) (p : warmup.Proto) (st st' : warmup.State G) :
  warmup.goroutine E SendRequest fuel w maxDurationSeconds p st = Some st' ->
  exists new,
    warmup.sends st' = warmup.sends st ++ new /\
    sends_among p
      (match p with
       | warmup.HTTP => map http.Path (warmup.HttpRequests w)
       | warmup.GRPC => map warmup.ServiceMethod (warmup.GrpcRequests w)
       end) new.
Proof.
  unfold warmup.goroutine. destruct p.
  - pose proof (liftW_frame G (warmup.GetWarmupHTTPRequests E w maxDurationSeconds) st)
      as (Hr & _ & _ & Hs & _).
    pose proof (requestSource_over (warmup.HttpRequests w) maxDurationSeconds
                  (warmup.world st)) as Hover.
    destruct (warmup.liftW _ st) as [requests st1]. cbn [fst snd] in Hr, Hs.
    unfold warmup.GetWarmupHTTPRequests in Hr. rewrite <- Hr in Hover.
    intros Hrun.
    destruct (HTTPWarmupWorker_over _ _ _ _ _ _ _ _ Hover Hrun) as (new & Hnew & Hall).
    exists new. rewrite <- Hs. auto.
  - pose proof (liftW_frame G (warmup.GetWarmupGrpcRequests E w maxDurationSeconds) st)
      as (Hr & _ & _ & Hs & _).
    pose proof (requestSource_over (warmup.GrpcRequests w) maxDurationSeconds
                  (warmup.world st)) as Hover.
    destruct (warmup.liftW _ st) as [requests st1]. cbn [fst snd] in Hr, Hs.
    unfold warmup.GetWarmupGrpcRequests in Hr. rewrite <- Hr in Hover.
    intros Hrun.
    destruct (GrpcWarmupWorker_over _ _ _ _ _ _ _ Hover Hrun) as (new & Hnew & Hall).
    exists new. rewrite <- Hs. auto.
Qed.

(** *** How much a worker can send *)

(** The gRPC transport does not turn the clock back. *)
Hypothesis SendRequest_clock :
  forall g serviceMethod message headers b wd,
    now wd <= now (snd (SendRequest g serviceMethod message headers b wd)).

(** The pacing time the sends still to come can take up, for a worker
    pacing by [d] nanoseconds. *)
Definition budget (d : Z) {A} (ch : warmup.chan A) (wd : World) : Z :=
  match ch with
  | warmup.closed => 0
  | warmup.sending _ _ timeout =>
      if timeout <=? now wd then d else 2 * d + (timeout - now wd)
  end.

Lemma budget_step (d : Z) {A} (ch' : warmup.chan A) (a : A) (pool : list A) (timeout : Z)
    (wd wd2 : World) (n : nat) :
  0 < d ->
  now wd + d <= now wd2 ->
  ch' = warmup.closed \/ (now wd < timeout /\ exists a', ch' = warmup.sending a' pool timeout) ->
  Z.of_nat n * d <= budget d ch' wd2 ->
  Z.of_nat (S n) * d <= budget d (warmup.sending a pool timeout) wd.
Proof.
  intros Hd Hclock Hch Hn. cbn [budget].
  destruct Hch as [-> | (Hlt & a' & ->)]; cbn [budget] in Hn.
  - destruct (Z.leb_spec timeout (now wd)); nia.
  - destruct (Z.leb_spec timeout (now wd)); [lia|].
    destruct (Z.leb_spec timeout (now wd2)); nia.
Qed.

Lemma HTTPWarmupWorker_budget (w : warmup.Warmup) (headers : list string) (delay : Z)
    (fuel : nat) :
  0 < pacing delay ->
  forall (requests : warmup.chan http.Request) (st st' : warmup.State G),
  warmup.HTTPWarmupWorker E fuel w requests headers delay st = Some st' ->
  exists new,
    warmup.sends st' = warmup.sends st ++ new /\
    Z.of_nat (List.length new) * pacing delay <= budget (pacing delay) requests (warmup.world st).
Proof.
  intros Hd. induction fuel as [|fuel IH]; intros requests st st' Hrun; [discriminate Hrun|].
  cbn [warmup.HTTPWarmupWorker] in Hrun.
  pose proof (liftW_frame G (warmup.recv E requests) st) as (Hr & Hw & _ & Hs1 & _).
  destruct (warmup.liftW (warmup.recv E requests) st) as [[r requests'] st1].
  cbn [fst snd] in Hr, Hw, Hs1.
  destruct requests as [|a pool timeout].
  - cbn in Hr. inversion Hr; subst. inversion Hrun; subst st'.
    exists []. cbn. rewrite app_nil_r. split; [exact Hs1 | lia].
  - pose proof (recv_sending E a pool timeout (warmup.world st)) as Hrecv.
    destruct (warmup.recv E (warmup.sending a pool timeout) (warmup.world st))
      as [[r0 ch0] wd0].
    cbn [fst snd] in Hr, Hw. inversion Hr; subst r0 ch0.
    destruct Hrecv as (-> & Hnow & Hch).
    pose proof (HTTPWarmupWorker_body_spec E G w a headers delay st1) as Hbody.
    cbv zeta in Hbody.
    pose proof (http_SendRequest_clock E (warmup.httpClient (warmup.Target_ w))
                  (http.Method a) (http.Path a) headers (http.Body a)
                  (paced delay (warmup.world st1))) as Hmono.
    destruct (http.SendRequest E _ _ _ _ _ _) as [resp wd2].
    destruct (warmup.HTTPWarmupWorker_body E w a headers delay st1) as [u st2].
    cbn [snd] in Hbody, Hmono. destruct Hbody as (Hworld & _ & Hs2 & _).
    destruct (IH _ _ _ Hrun) as (new & Hs & Hn).
    eexists. split.
    + rewrite Hs, Hs2, Hs1, <- app_assoc. reflexivity.
    + cbn [List.length app]. eapply budget_step; [exact Hd | | exact Hch | exact Hn].
      rewrite Hworld. cbn [now record].
      rewrite paced_clock in Hmono by exact Hd. rewrite Hw in Hmono. lia.
Qed.

Lemma GrpcWarmupWorker_budget (headers : list string) (delay : Z) (fuel : nat) :
  0 < pacing delay ->
  forall (requests : warmup.chan warmup.GrpcRequest) (st st' : warmup.State G),
  warmup.GrpcWarmupWorker E SendRequest fuel requests headers delay st = Some st' ->
  exists new,
    warmup.sends st' = warmup.sends st ++ new /\
    Z.of_nat (List.length new) * pacing delay <= budget (pacing delay) requests (warmup.world st).
Proof.
  intros Hd. induction fuel as [|fuel IH]; intros requests st st' Hrun; [discriminate Hrun|].
  cbn [warmup.GrpcWarmupWorker] in Hrun.
  pose proof (liftW_frame G (warmup.recv E requests) st) as (Hr & Hw & _ & Hs1 & _).
  destruct (warmup.liftW (warmup.recv E requests) st) as [[r requests'] st1].
  cbn [fst snd] in Hr, Hw, Hs1.
  destruct requests as [|a pool timeout].
  - cbn in Hr. inversion Hr; subst. inversion Hrun; subst st'.
    exists []. cbn. rewrite app_nil_r. split; [exact Hs1 | lia].
  - pose proof (recv_sending E a pool timeout (warmup.world st)) as Hrecv.
    destruct (warmup.recv E (warmup.sending a pool timeout) (warmup.world st))
      as [[r0 ch0] wd0].
    cbn [fst snd] in Hr, Hw. inversion Hr; subst r0 ch0.
    destruct Hrecv as (-> & Hnow & Hch).
    pose proof (GrpcWarmupWorker_body_spec G SendRequest a headers delay st1) as Hbody.
    cbv zeta in Hbody.
    pose proof (SendRequest_clock (warmup.grpcClient st1) (warmup.ServiceMethod a)
                  (warmup.Message a) headers false
                  (paced delay (warmup.world st1))) as Hmono.
    destruct (SendRequest _ _ _ _ _ _) as [[resp g] wd2].
    destruct (warmup.GrpcWarmupWorker_body SendRequest a headers delay st1) as [u st2].
    cbn [snd] in Hbody, Hmono. destruct Hbody as (Hworld & _ & Hs2 & _).
    destruct (IH _ _ _ Hrun) as (new & Hs & Hn).
    eexists. split.
    + rewrite Hs, Hs2, Hs1, <- app_assoc. reflexivity.
    + cbn [List.length app]. eapply budget_step; [exact Hd | | exact Hch | exact Hn].
      rewrite Hworld. cbn [now record].
      rewrite paced_clock in Hmono by exact Hd. rewrite Hw in Hmono. lia.
Qed.

Lemma requestSource_budget {A} (pool : list A) (maxDurationSeconds d : Z) (wd : World) :
  0 < d ->
  let '(ch, wd') := warmup.requestSource E pool maxDurationSeconds wd in
  budget d ch wd' <= 2 * d + Z.max 0 (Go.mul maxDurationSeconds time.Second).
Proof.
  intros Hd. unfold warmup.requestSource.
  generalize (Go.mul maxDurationSeconds time.Second). intros Dns.
  destruct pool as [|a0 pool]; [cbn [budget ret]; lia|].
  unfold warmup.produce, time.fired, rand.Intn. run.
  destruct (Z.leb_spec (now wd + Dns) (now wd)); cbn [budget now]; [lia|].
  destruct (Z.leb_spec (now wd + Dns) (now wd)); lia.
Qed.

(** X19: pacing bounds what one worker sends: with a pacing delay of
    [d > 0] and a run of duration [D], a goroutine makes at most
    [2 + D / d] sends (all but two of its pacing sleeps fit in the
    duration). *)
Theorem sends_bounded_by_pacing (fuel : nat) (w : warmup.Warmup)
    (maxDurationSeconds : Z) (p : warmup.Proto) (st st' : warmup.State G) :
  0 < pacing (warmup.RequestDelayMilliseconds w) ->
  warmup.goroutine E SendRequest fuel w maxDurationSeconds p st = Some st' ->
  exists new,
    warmup.sends st' = warmup.sends st ++ new /\
    (Z.of_nat (List.length new) - 2) * pacing (warmup.RequestDelayMilliseconds w)
      <= Z.max 0 (Go.mul maxDurationSeconds time.Second).
Proof.
  intros Hd. unfold warmup.goroutine. destruct p.
  - pose proof (liftW_frame G (warmup.GetWarmupHTTPRequests E w maxDurationSeconds) st)
      as (Hr & Hw & _ & Hs & _).
    pose proof (requestSource_budget (warmup.HttpRequests w) maxDurationSeconds _
                  (warmup.world st) Hd) as Hb.
    destruct (warmup.liftW _ st) as [requests st1]. cbn [fst snd] in Hr, Hw, Hs.
    unfold warmup.GetWarmupHTTPRequests in Hr, Hw.
    destruct (warmup.requestSource E (warmup.HttpRequests w) maxDurationSeconds
                (warmup.world st)) as [ch wd1].
    cbn [fst snd] in Hr, Hw. subst ch wd1.
    intros Hrun.
    destruct (HTTPWarmupWorker_budget _ _ _ _ Hd _ _ _ Hrun) as (new & Hnew & Hn).
    exists new. rewrite <- Hs. split; [exact Hnew | lia].
  - pose proof (liftW_frame G (warmup.GetWarmupGrpcRequests E w maxDurationSeconds) st)
      as (Hr & Hw & _ & Hs & _).
    pose proof (requestSource_budget (warmup.GrpcRequests w) maxDurationSeconds _
                  (warmup.world st) Hd) as Hb.
    destruct (warmup.liftW _ st) as [requests st1]. cbn [fst snd] in Hr, Hw, Hs.
    unfold warmup.GetWarmupGrpcRequests in Hr, Hw.
    destruct (warmup.requestSource E (warmup.GrpcRequests w) maxDurationSeconds
                (warmup.world st)) as [ch wd1].
    cbn [fst snd] in Hr, Hw. subst ch wd1.
    intros Hrun.
    destruct (GrpcWarmupWorker_budget _ _ _ Hd _ _ _ Hrun) as (new & Hnew & Hn).
    exists new. rewrite <- Hs. split; [exact Hnew | lia].
Qed.

(** *** The duration at its edges *)

Lemma requestSource_open {A} (a0 : A) (pool : list A) (maxDurationSeconds : Z) (wd : World) :
  0 < Go.mul maxDurationSeconds time.Second ->
  exists a timeout,
    fst (warmup.requestSource E (a0 :: pool) maxDurationSeconds wd)
      = warmup.sending a (a0 :: pool) timeout.
Proof.
  intros HD. unfold warmup.requestSource, warmup.produce, time.fired, rand.Intn. run.
  destruct (Z.leb_spec (now wd + Go.mul maxDurationSeconds time.Second) (now wd)); [lia|].
  cbn. eauto.
Qed.

(** X20: a run of positive duration over a non-empty pool sends at least
    once: a goroutine that returns has made a first send. *)
Theorem positive_duration_sends_at_least_once (fuel : nat) (w : warmup.Warmup)
    (maxDurationSeconds : Z) (p : warmup.Proto) (st st' : warmup.State G) :
  0 < Go.mul maxDurationSeconds time.Second ->
  match p with
  | warmup.HTTP => warmup.HttpRequests w <> []
  | warmup.GRPC => warmup.GrpcRequests w <> []
  end ->
  warmup.goroutine E SendRequest fuel w maxDurationSeconds p st = Some st' ->
  exists s new, warmup.sends st' = warmup.sends st ++ s :: new.
Proof.
  intros HD Hpool. unfold warmup.goroutine. destruct p.
  - destruct (warmup.HttpRequests w) as [|a0 pool] eqn:Hp; [contradiction|].
    pose proof (liftW_frame G (warmup.GetWarmupHTTPRequests E w maxDurationSeconds) st)
      as (Hr & _ & _ & Hs & _).
    destruct (requestSource_open a0 pool maxDurationSeconds (warmup.world st) HD)
      as (a & timeout & Hopen).
    destruct (warmup.liftW _ st) as [requests st1]. cbn [fst snd] in Hr, Hs.
    unfold warmup.GetWarmupHTTPRequests in Hr. rewrite Hp, Hopen in Hr. subst requests.
    destruct fuel as [|fuel]; [discriminate|].
    cbn [warmup.HTTPWarmupWorker].
    pose proof (liftW_frame G (warmup.recv E (warmup.sending a (a0 :: pool) timeout)) st1)
      as (Hr1 & _ & _ & Hs1 & _).
    pose proof (recv_first E a (a0 :: pool) timeout (warmup.world st1)) as Hfirst.
    destruct (warmup.liftW (warmup.recv E (warmup.sending a (a0 :: pool) timeout)) st1)
      as [[r rest] st2].
    cbn [fst snd] in Hr1, Hs1. apply (f_equal fst) in Hr1. cbn [fst] in Hr1.
    rewrite Hfirst in Hr1. subst r.
    pose proof (HTTPWarmupWorker_body_spec E G w a (warmup.HttpHeaders w)
                  (warmup.RequestDelayMilliseconds w) st2) as Hbody.
    cbv zeta in Hbody.
    destruct (http.SendRequest E _ _ _ _ _ _) as [resp wd2].
    destruct (warmup.HTTPWarmupWorker_body E w a (warmup.HttpHeaders w)
                (warmup.RequestDelayMilliseconds w) st2) as [u st3].
    cbn [snd] in Hbody. destruct Hbody as (_ & _ & Hs3 & _).
    intros Hrun. destruct (HTTPWarmupWorker_done E G _ _ _ _ _ _ _ Hrun) as (new & Hnew & _).
    eexists. exists new. rewrite Hnew, Hs3, Hs1, Hs, <- app_assoc. reflexivity.
  - destruct (warmup.GrpcRequests w) as [|a0 pool] eqn:Hp; [contradiction|].
    pose proof (liftW_frame G (warmup.GetWarmupGrpcRequests E w maxDurationSeconds) st)
      as (Hr & _ & _ & Hs & _).
    destruct (requestSource_open a0 pool maxDurationSeconds (warmup.world st) HD)
      as (a & timeout & Hopen).
    destruct (warmup.liftW _ st) as [requests st1]. cbn [fst snd] in Hr, Hs.
    unfold warmup.GetWarmupGrpcRequests in Hr. rewrite Hp, Hopen in Hr. subst requests.
    destruct fuel as [|fuel]; [discriminate|].
    cbn [warmup.GrpcWarmupWorker].
    pose proof (liftW_frame G (warmup.recv E (warmup.sending a (a0 :: pool) timeout)) st1)
      as (Hr1 & _ & _ & Hs1 & _).
    pose proof (recv_first E a (a0 :: pool) timeout (warmup.world st1)) as Hfirst.
    destruct (warmup.liftW (warmup.recv E (warmup.sending a (a0 :: pool) timeout)) st1)
      as [[r rest] st2].
    cbn [fst snd] in Hr1, Hs1. apply (f_equal fst) in Hr1. cbn [fst] in Hr1.
    rewrite Hfirst in Hr1. subst r.
    pose proof (GrpcWarmupWorker_body_spec G SendRequest a (warmup.HttpHeaders w)
                  (warmup.RequestDelayMilliseconds w) st2) as Hbody.
    cbv zeta in Hbody.
    destruct (SendRequest _ _ _ _ _ _) as [[resp g] wd2].
    destruct (warmup.GrpcWarmupWorker_body SendRequest a (warmup.HttpHeaders w)
                (warmup.RequestDelayMilliseconds w) st2) as [u st3].
    cbn [snd] in Hbody. destruct Hbody as (_ & _ & Hs3 & _).
    intros Hrun.
    destruct (GrpcWarmupWorker_done E G SendRequest _ _ _ _ _ _ Hrun) as (new & Hnew & _).
    eexists. exists new. rewrite Hnew, Hs3, Hs1, Hs, <- app_assoc. reflexivity.
Qed.

(** *** The WaitGroup and the gRPC client *)

Lemma launch_returned (w : warmup.Warmup) (hasHttpRequests hasGrpcRequests : bool)
    (st st' : warmup.State G) :
  warmup.launch Connect w hasHttpRequests hasGrpcRequests st = Returned st' ->
  exists interval,
    Go.div (warmup.ConcurrencyTargetSeconds w) (warmup.Concurrency w) = Some interval /\
    st' = snd ((if hasGrpcRequests then warmup.grpcPhase Connect w interval else ret tt)
                 (after_http G w hasHttpRequests interval st)).
Proof.
  intros Hl.
  destruct (Go.div (warmup.ConcurrencyTargetSeconds w) (warmup.Concurrency w))
    as [interval|] eqn:Hdiv.
  - exists interval. split; [reflexivity|].
    rewrite (launch_unfold G Connect w _ _ st interval Hdiv) in Hl.
    inversion Hl. reflexivity.
  - exfalso. unfold warmup.launch in Hl.
    destruct (warmup.liftW _ st) as [u st1]. destruct (warmup.wg_new st1) as [u1 st2].
    rewrite Hdiv in Hl. discriminate Hl.
Qed.





(** X22: a run without gRPC requests leaves the gRPC client alone: the
    launcher does not call [Connect], and what it starts is the HTTP
    workers, one per unit of concurrency, if HTTP requests are
    configured, and nothing otherwise. *)
Theorem no_grpc_requests_no_connect (w : warmup.Warmup) (hasHttpRequests : bool)
    (st st' : warmup.State G) :
  warmup.launch Connect w hasHttpRequests false st = Returned st' ->
  warmup.grpcClient st' = warmup.grpcClient st /\
  warmup.ctl st' =
    warmup.ctl st ++
    (if hasHttpRequests
     then map (warmup.CtlSpawn warmup.HTTP) (rounds 1 (Z.to_nat (warmup.Concurrency w)))
     else []) /\
  warmup.goroutines st' =
    (if hasHttpRequests then repeat warmup.HTTP (Z.to_nat (warmup.Concurrency w)) else []).
Proof.
  intros Hl. destruct (launch_returned _ _ _ _ _ Hl) as (interval & _ & ->).
  change (snd (ret tt ?x)) with x. unfold ret. cbn [snd].
  unfold after_http. destruct hasHttpRequests.
  - pose proof (spawnHTTP_spec G w interval (started G st))
      as (_ & _ & Hgo & Hctl & _ & _ & _ & Hg).
    rewrite Hgo, Hctl, Hg. cbn. auto.
  - cbn. rewrite app_nil_r. auto.
Qed.

End WarmupCases.

(** Witness for X17: a 200 answered in 3ms is logged in green. *)
Lemma http_green_iff_2xx_witness :
  warmup.world (snd (warmup.http_outcome Scenario.get_a (mkResponse 3000000 None "http" 200)
                       (Scenario.state0 tt Scenario.world0))) =
  record (EvLog (LogHttpGreen "http" 3 200 (http.Method Scenario.get_a)
                   (http.Path Scenario.get_a)))
         Scenario.world0.
Proof.
  exact (proj1 (http_green_iff_2xx unit Scenario.get_a (mkResponse 3000000 None "http" 200)
                  (Scenario.state0 tt Scenario.world0) eq_refl)
               ltac:(cbn; lia)).
Defined.

(** Witness for X18: one HTTP worker for one second over the two scenario
    requests. *)
Lemma sends_are_drawn_from_the_pool_witness :
  exists st' new,
    warmup.goroutine Scenario.env_up Scenario.no_SendRequest 10 Scenario.w_http 1
                     warmup.HTTP (Scenario.state0 tt Scenario.world0) = Some st' /\
    warmup.sends st' = new /\
    sends_among warmup.HTTP (map http.Path [Scenario.get_a; Scenario.get_b]) new.
Proof.
  destruct (warmup.goroutine Scenario.env_up Scenario.no_SendRequest 10 Scenario.w_http 1
              warmup.HTTP (Scenario.state0 tt Scenario.world0)) as [st'|] eqn:Hrun.
  - destruct (sends_are_drawn_from_the_pool Scenario.env_up unit Scenario.no_SendRequest 10
                Scenario.w_http 1 warmup.HTTP (Scenario.state0 tt Scenario.world0) st' Hrun)
      as (new & Hnew & Hamong).
    exists st', new. split; [reflexivity|]. split; [exact Hnew | exact Hamong].
  - vm_compute in Hrun. discriminate Hrun.
Defined.

(** Witness for X19: with 600ms between sends and one second to run, at
    most three sends. *)
Lemma sends_bounded_by_pacing_witness :
  exists st' new,
    warmup.goroutine Scenario.env_up Scenario.no_SendRequest 10 Scenario.w_http 1
                     warmup.HTTP (Scenario.state0 tt Scenario.world0) = Some st' /\
    warmup.sends st' = new /\
    (Z.of_nat (List.length new) - 2) * pacing 600 <= Z.max 0 (Go.mul 1 time.Second).
Proof.
  destruct (warmup.goroutine Scenario.env_up Scenario.no_SendRequest 10 Scenario.w_http 1
              warmup.HTTP (Scenario.state0 tt Scenario.world0)) as [st'|] eqn:Hrun.
  - destruct (sends_bounded_by_pacing Scenario.env_up unit Scenario.no_SendRequest
                (fun _ _ _ _ _ wd => Z.le_refl (now wd)) 10
                Scenario.w_http 1 warmup.HTTP (Scenario.state0 tt Scenario.world0) st'
                eq_refl Hrun)
      as (new & Hnew & Hbound).
    exists st', new. split; [reflexivity|]. split; [exact Hnew | exact Hbound].
  - vm_compute in Hrun. discriminate Hrun.
Defined.

(** Witness for X20: one second over the two scenario requests. *)
Lemma positive_duration_sends_at_least_once_witness :
  exists st' s new,
    warmup.goroutine Scenario.env_up Scenario.no_SendRequest 10 Scenario.w_http 1
                     warmup.HTTP (Scenario.state0 tt Scenario.world0) = Some st' /\
    warmup.sends st' = s :: new.
Proof.
  destruct (warmup.goroutine Scenario.env_up Scenario.no_SendRequest 10 Scenario.w_http 1
              warmup.HTTP (Scenario.state0 tt Scenario.world0)) as [st'|] eqn:Hrun.
  - destruct (positive_duration_sends_at_least_once Scenario.env_up unit
                Scenario.no_SendRequest 10 Scenario.w_http 1 warmup.HTTP
                (Scenario.state0 tt Scenario.world0) st'
                eq_refl ltac:(discriminate) Hrun)
      as (s & new & Hnew).
    exists st', s, new. split; [reflexivity | exact Hnew].
  - vm_compute in Hrun. discriminate Hrun.
Defined.


(** Witness for X22: three HTTP workers and no gRPC requests. *)
Lemma no_grpc_requests_no_connect_witness :
  exists st',
    warmup.launch Scenario.refused_Connect Scenario.w_ramp true false
                  (Scenario.state0 tt Scenario.world0) = Returned st' /\
    warmup.grpcClient st' = tt /\
    warmup.ctl st' =
      [warmup.CtlSpawn warmup.HTTP 1; warmup.CtlSpawn warmup.HTTP 2;
       warmup.CtlSpawn warmup.HTTP 3] /\
    warmup.goroutines st' = [warmup.HTTP; warmup.HTTP; warmup.HTTP].
Proof.
  destruct (warmup.launch Scenario.refused_Connect Scenario.w_ramp true false
              (Scenario.state0 tt Scenario.world0))
    as [st' | msg | | st'] eqn:Hrun;
    try (vm_compute in Hrun; discriminate Hrun).
  exists st'. split; [reflexivity|].
  exact (no_grpc_requests_no_connect unit Scenario.refused_Connect Scenario.w_ramp true
           (Scenario.state0 tt Scenario.world0) st' Hrun).
Defined.
